(** * Group1337xSearchBot: the Telegram search-bot worker [src/worker.js]

    A shallow embedding of the worker and the properties of its request
    handling.  The file has three layers:

    - [JS]: the fragment of the JavaScript runtime the worker relies on
      (UTF-16 strings, JSON values, truthiness, property reads, [trim],
      [startsWith], [encodeURIComponent], [JSON.stringify], string
      conversion);
    - [Run]: the effects of an invocation: exceptions, the outbound HTTP
      calls (recorded in order, answered by the network) and the console;
    - [Worker]: [sendMessage], [handleUpdate], [setWebhook] and the exported
      [fetch] handler, function by function;
    - [Props] and [Examples]: the vocabulary of the properties and concrete
      invocations; the properties follow.

    A number is the integer its JSON literal denotes (chat and message
    identifiers, result counts, statuses); it is printed as the double
    nearest to it. *)

From Stdlib Require Import List ZArith NArith Lia Bool Ascii String DecimalString.
Import ListNotations.

(* ================================================================== *)
(** ** The JavaScript fragment *)
(* ================================================================== *)

Module JS.

(** A JavaScript string is a sequence of UTF-16 code units. *)
Definition jsstring := list N.

(** An ASCII literal of the source as a JavaScript string. *)
Definition lit (s : string) : jsstring :=
  map N_of_ascii (list_ascii_of_string s).

Definition jseq (a b : jsstring) : bool :=
  if list_eq_dec N.eq_dec a b then true else false.

(** [WhiteSpace] and [LineTerminator] of ECMAScript: what [trim] strips. *)
Definition is_whitespace (c : N) : bool :=
  ((9 <=? c) && (c <=? 13) || (c =? 32) || (c =? 160) || (c =? 5760)
   || (8192 <=? c) && (c <=? 8202) || (c =? 8232) || (c =? 8233)
   || (c =? 8239) || (c =? 8287) || (c =? 12288) || (c =? 65279))%N.

Fixpoint trimStart (s : jsstring) : jsstring :=
  match s with
  | c :: r => if is_whitespace c then trimStart r else s
  | [] => []
  end.

Definition trimEnd (s : jsstring) : jsstring := rev (trimStart (rev s)).

(** [String.prototype.trim]. *)
Definition trim (s : jsstring) : jsstring := trimEnd (trimStart s).

(** [String.prototype.startsWith] (position 0). *)
Fixpoint startsWith (s p : jsstring) {struct p} : bool :=
  match p, s with
  | [], _ => true
  | _ :: _, [] => false
  | x :: p', c :: s' => (x =? c)%N && startsWith s' p'
  end.

(** [String.prototype.includes]. *)
Fixpoint includes (s p : jsstring) : bool :=
  startsWith s p ||
  match s with
  | [] => false
  | _ :: s' => includes s' p
  end.

#[local] Set Warnings "-register-all".

(** JSON values as [JSON.parse] builds them, and [undefined]. An object is
    the list of its own properties, each key once, in the order in which the
    engine enumerates them. *)
Inductive value : Type :=
| VUndefined
| VNull
| VBool (b : bool)
| VNum (n : Z)
| VStr (s : jsstring)
| VArr (elems : list value)
| VObj (props : list (jsstring * value)).

(** [ToBoolean]. *)
Definition truthy (v : value) : bool :=
  match v with
  | VUndefined | VNull => false
  | VBool b => b
  | VNum n => negb (n =? 0)%Z
  | VStr s => match s with [] => false | _ => true end
  | VArr _ | VObj _ => true
  end.

(** [v === 'literal'] *)
Definition strict_eq_str (v : value) (s : jsstring) : bool :=
  match v with
  | VStr t => jseq t s
  | _ => false
  end.

Fixpoint assoc (k : jsstring) (props : list (jsstring * value)) : value :=
  match props with
  | [] => VUndefined
  | (k', v) :: rest => if jseq k' k then v else assoc k rest
  end.

(** The errors the worker can meet. *)
Inductive error : Type :=
| TypeError
| URIError
| SyntaxError
| NetworkError
| Error (message : jsstring).

(** How an evaluation completes. *)
Inductive completion (A : Type) : Type :=
| Normal (a : A)
| Throws (e : error).
Arguments Normal {A} a.
Arguments Throws {A} e.

(** The property read [v.k], for the keys the worker reads ([message],
    [text], [chat], [id], [type], [message_id], [files], [length],
    [total_files], [ok]): none of them is inherited from a prototype, and
    [length] is an own property of strings and arrays.  Reading a property
    of [undefined] or [null] throws. *)
Definition get (v : value) (k : jsstring) : completion value :=
  match v with
  | VUndefined | VNull => Throws TypeError
  | VBool _ | VNum _ => Normal VUndefined
  | VStr s =>
      if jseq k (lit "length") then Normal (VNum (Z.of_nat (List.length s)))
      else Normal VUndefined
  | VArr l =>
      if jseq k (lit "length") then Normal (VNum (Z.of_nat (List.length l)))
      else Normal VUndefined
  | VObj props => Normal (assoc k props)
  end.

(** *** Printing a number

    The number is first the double nearest to the integer (ties to the even
    mantissa): [q * 2^shift] with [q] of 53 bits, or the integer itself below
    [2^53].  A double prints as the shortest decimal that reads back as the
    same double, the closest such; from [10^21] on in exponent form; beyond
    the largest double as [Infinity]. *)

Definition decimal (n : Z) : jsstring :=
  lit (NilZero.string_of_int (Z.to_int n)).

Definition nearest_double (n : Z) : Z * Z :=
  (if n <? 2 ^ 53 then (n, 0)
   else
     let shift := Z.log2 n - 52 in
     let q := Z.shiftr n shift in
     let r := n - Z.shiftl q shift in
     let half := Z.shiftl 1 (shift - 1) in
     let q' := if (half <? r) || ((r =? half) && Z.odd q) then q + 1 else q in
     if q' =? 2 ^ 53 then (2 ^ 52, shift + 1) else (q', shift))%Z.

(** Whether the integer [v] rounds to the double [q * 2^shift]: it lies
    between the midpoints to the neighbouring doubles, which count when [q]
    is even (all quantities times four, the lower midpoint of a power of
    two being a quarter of the gap away). *)
Definition reads_back (q shift v : Z) : bool :=
  (let d := Z.shiftl q shift in
   let above := Z.shiftl 1 (shift + 1) in
   let below := if q =? 2 ^ 52 then Z.shiftl 1 shift else above in
   if Z.even q
   then (4 * d - below <=? 4 * v) && (4 * v <=? 4 * d + above)
   else (4 * d - below <? 4 * v) && (4 * v <? 4 * d + above))%Z.

(** The multiple of [p] nearest to the double, if one reads back. *)
Definition round_to (q shift : Z) (p : Z) : option Z :=
  (let d := Z.shiftl q shift in
   let lo := d / p * p in
   let hi := lo + p in
   match reads_back q shift lo, reads_back q shift hi with
   | true, true =>
       if d - lo <? hi - d then Some lo
       else if hi - d <? d - lo then Some hi
       else if Z.even (lo / p) then Some lo else Some hi
   | true, false => Some lo
   | false, true => Some hi
   | false, false => None
   end)%Z.

(** The decimal with the most trailing zeros that reads back. *)
Fixpoint shortest (q shift : Z) (j : nat) : Z :=
  match round_to q shift (10 ^ Z.of_nat j) with
  | Some v => v
  | None =>
      match j with
      | O => Z.shiftl q shift
      | S j' => shortest q shift j'
      end
  end.

Fixpoint strip_zeros (fuel : nat) (v : Z) : Z :=
  match fuel with
  | O => v
  | S fuel' => if (v mod 10 =? 0)%Z then strip_zeros fuel' (v / 10) else v
  end.

Definition exponential (v : Z) : jsstring :=
  let n := List.length (decimal v) in
  let s := decimal (strip_zeros n v) in
  match s with
  | [] => []
  | c :: rest =>
      c :: match rest with [] => [] | _ => lit "." ++ rest end
      ++ lit "e+" ++ decimal (Z.of_nat n - 1)
  end.

Definition print_double (q shift : Z) : jsstring :=
  (if shift =? 0 then decimal q
   else if 971 <? shift then lit "Infinity"
   else
     let v := shortest q shift (List.length (decimal (Z.shiftl q shift))) in
     if v <? 10 ^ 21 then decimal v else exponential v)%Z.

Definition is_finite (n : Z) : bool :=
  (snd (nearest_double (Z.abs n)) <=? 971)%Z.

(** [Number::toString] *)
Definition number_to_string (n : Z) : jsstring :=
  let '(q, shift) := nearest_double (Z.abs n) in
  (if (n <? 0)%Z then lit "-" else []) ++ print_double q shift.

Fixpoint join (sep : jsstring) (l : list jsstring) : jsstring :=
  match l with
  | [] => []
  | [x] => x
  | x :: rest => x ++ sep ++ join sep rest
  end.

(** What [ToString] yields when it yields a string: a string is itself, an
    array is joined with commas, [null] and [undefined] elements printing
    as nothing, an object prints by [Object.prototype.toString].  The
    templates of [sendMessage] and [setWebhook] apply it to the strings of
    the environment and to what [JSON.stringify] returns. *)
Fixpoint ToString (v : value) : jsstring :=
  match v with
  | VUndefined => lit "undefined"
  | VNull => lit "null"
  | VBool true => lit "true"
  | VBool false => lit "false"
  | VNum n => number_to_string n
  | VStr s => s
  | VArr l =>
      join (lit ",")
        (map (fun e => match e with
                       | VUndefined | VNull => []
                       | _ => ToString e
                       end) l)
  | VObj _ => lit "[object Object]"
  end.

(** An object is turned into a primitive by its [toString] method.  An
    own property of that name, which in a JSON document is no function,
    hides the inherited method, and the conversion throws; so does the
    joining of an array that holds such an object. *)
Fixpoint unprintable (v : value) : bool :=
  match v with
  | VObj props => existsb (fun '(k, _) => jseq k (lit "toString")) props
  | VArr l => existsb unprintable l
  | _ => false
  end.

(** [ToString] of a value of a JSON document, as a template literal
    applies it. *)
Definition ToString_value (v : value) : completion jsstring :=
  if unprintable v then Throws TypeError else Normal (ToString v).

(** *** Comparison with zero

    [v > 0] converts [v] to a number.  Only the sign of the result matters
    here, so the conversion of a string is carried out exactly on the
    integers: the literal [m * 10^k] denotes a positive double when it
    exceeds half the least subnormal, [2^-1075]. *)

Definition is_digit (c : N) : bool := ((48 <=? c) && (c <=? 57))%N.

Definition is_hex_digit (c : N) : bool :=
  (is_digit c || (65 <=? c) && (c <=? 70) || (97 <=? c) && (c <=? 102))%N.

Fixpoint span_digits (s : jsstring) : list N * jsstring :=
  match s with
  | c :: r =>
      if is_digit c then let (d, r') := span_digits r in (c :: d, r')
      else ([], s)
  | [] => ([], [])
  end.

Definition digits_value (d : list N) : Z :=
  fold_left (fun acc c => 10 * acc + Z.of_N (c - 48))%Z d 0%Z.

(** [ExponentPart], when the rest of the literal is one: its value. *)
Definition parse_exponent (r : jsstring) : option Z :=
  match r with
  | [] => Some 0%Z
  | c :: r' =>
      if ((c =? 101) || (c =? 69))%N then
        let '(neg, r'') :=
          match r' with
          | 43%N :: t => (false, t)
          | 45%N :: t => (true, t)
          | _ => (false, r')
          end in
        match span_digits r'' with
        | ((_ :: _) as d, []) =>
            Some (if neg then - digits_value d else digits_value d)%Z
        | _ => None
        end
      else None
  end.

Definition decimal_positive (t : jsstring) : bool :=
  let '(neg, u) :=
    match t with
    | 43%N :: r => (false, r)
    | 45%N :: r => (true, r)
    | _ => (false, t)
    end in
  if jseq u (lit "Infinity") then negb neg
  else
    let '(d1, r1) := span_digits u in
    let '(d2, r2) :=
      match r1 with
      | 46%N :: r => span_digits r
      | _ => ([], r1)
      end in
    match d1 ++ d2, parse_exponent r2 with
    | _ :: _, Some e =>
        let m := digits_value (d1 ++ d2) in
        let k := (e - Z.of_nat (List.length d2))%Z in
        negb neg && (0 <? m)%Z
        && ((0 <=? k)%Z || (10 ^ (- k) <? m * 2 ^ 1075)%Z)
    | _, _ => false
    end.

Definition nondecimal_positive (digit : N -> bool) (r : jsstring) : bool :=
  match r with
  | [] => false
  | _ => forallb digit r && existsb (fun c => negb (c =? 48)%N) r
  end.

(** Whether [StringToNumber s] is a positive number. *)
Definition StringToNumber_positive (s : jsstring) : bool :=
  let t := trim s in
  match t with
  | 48%N :: x :: r =>
      if ((x =? 120) || (x =? 88))%N then nondecimal_positive is_hex_digit r
      else if ((x =? 111) || (x =? 79))%N then
        nondecimal_positive (fun c => (48 <=? c) && (c <=? 55))%N r
      else if ((x =? 98) || (x =? 66))%N then
        nondecimal_positive (fun c => (48 <=? c) && (c <=? 49))%N r
      else decimal_positive t
  | _ => decimal_positive t
  end.

(** [v > 0]: an object or an array is first turned into a primitive, the
    string [toString] gives (the inherited [valueOf] returns the object
    itself), which throws as above. *)
Definition gt_zero (v : value) : completion bool :=
  match v with
  | VUndefined | VNull => Normal false
  | VBool b => Normal b
  | VNum n => Normal (0 <? n)%Z
  | VStr s => Normal (StringToNumber_positive s)
  | VArr _ | VObj _ =>
      match ToString_value v with
      | Normal s => Normal (StringToNumber_positive s)
      | Throws e => Throws e
      end
  end.

(** *** [encodeURIComponent] *)

Definition is_alnum (c : N) : bool :=
  (is_digit c || (65 <=? c) && (c <=? 90) || (97 <=? c) && (c <=? 122))%N.

(** Alphanumerics and [- _ . ! ~ * ' ( )] are left as they are. *)
Definition uriUnreserved (c : N) : bool :=
  is_alnum c || existsb (N.eqb c) [45; 95; 46; 33; 126; 42; 39; 40; 41]%N.

Definition is_lead_surrogate (c : N) : bool := ((0xD800 <=? c) && (c <=? 0xDBFF))%N.
Definition is_trail_surrogate (c : N) : bool := ((0xDC00 <=? c) && (c <=? 0xDFFF))%N.

Definition surrogate_pair (lead trail : N) : N :=
  (0x10000 + (lead - 0xD800) * 0x400 + (trail - 0xDC00))%N.

Definition utf8 (cp : N) : list N :=
  (if cp <? 0x80 then [cp]
   else if cp <? 0x800 then
     [N.lor 0xC0 (N.shiftr cp 6); N.lor 0x80 (N.land cp 0x3F)]
   else if cp <? 0x10000 then
     [N.lor 0xE0 (N.shiftr cp 12);
      N.lor 0x80 (N.land (N.shiftr cp 6) 0x3F);
      N.lor 0x80 (N.land cp 0x3F)]
   else
     [N.lor 0xF0 (N.shiftr cp 18);
      N.lor 0x80 (N.land (N.shiftr cp 12) 0x3F);
      N.lor 0x80 (N.land (N.shiftr cp 6) 0x3F);
      N.lor 0x80 (N.land cp 0x3F)])%N.

Definition hex_digit (upper : bool) (d : N) : N :=
  (if d <? 10 then 48 + d else (if upper then 55 else 87) + d)%N.

Definition percent (octet : N) : jsstring :=
  [37; hex_digit true (N.shiftr octet 4); hex_digit true (N.land octet 15)]%N.

Definition percent_encode (cp : N) : jsstring := flat_map percent (utf8 cp).

(** A surrogate that is not part of a pair makes the call throw. *)
Fixpoint encodeURIComponent (s : jsstring) : completion jsstring :=
  match s with
  | [] => Normal []
  | c :: r =>
      if uriUnreserved c then
        match encodeURIComponent r with
        | Normal t => Normal (c :: t)
        | Throws e => Throws e
        end
      else if is_lead_surrogate c then
        match r with
        | d :: r' =>
            if is_trail_surrogate d then
              match encodeURIComponent r' with
              | Normal t => Normal (percent_encode (surrogate_pair c d) ++ t)
              | Throws e => Throws e
              end
            else Throws URIError
        | [] => Throws URIError
        end
      else if is_trail_surrogate c then Throws URIError
      else
        match encodeURIComponent r with
        | Normal t => Normal (percent_encode c ++ t)
        | Throws e => Throws e
        end
  end.

(** *** [JSON.stringify] *)

Definition unicode_escape (c : N) : jsstring :=
  [92; 117; hex_digit false (N.land (N.shiftr c 12) 15);
   hex_digit false (N.land (N.shiftr c 8) 15);
   hex_digit false (N.land (N.shiftr c 4) 15);
   hex_digit false (N.land c 15)]%N.

Fixpoint quote_units (s : jsstring) : jsstring :=
  match s with
  | [] => []
  | c :: r =>
      if (c =? 8)%N then lit "\b" ++ quote_units r
      else if (c =? 9)%N then lit "\t" ++ quote_units r
      else if (c =? 10)%N then lit "\n" ++ quote_units r
      else if (c =? 12)%N then lit "\f" ++ quote_units r
      else if (c =? 13)%N then lit "\r" ++ quote_units r
      else if (c =? 34)%N then [92; 34]%N ++ quote_units r
      else if (c =? 92)%N then [92; 92]%N ++ quote_units r
      else if (c <? 32)%N then unicode_escape c ++ quote_units r
      else if is_lead_surrogate c then
        match r with
        | d :: r' =>
            if is_trail_surrogate d then c :: d :: quote_units r'
            else unicode_escape c ++ quote_units r
        | [] => unicode_escape c
        end
      else if is_trail_surrogate c then unicode_escape c ++ quote_units r
      else c :: quote_units r
  end.

(** [QuoteJSONString] *)
Definition quote (s : jsstring) : jsstring := [34%N] ++ quote_units s ++ [34%N].

Definition newline : jsstring := [10%N].

(** [SerializeJSONProperty] with indentation unit [gap]; [None] is the
    [undefined] the serialisation of [undefined] yields.  An [undefined]
    property is left out of an object and printed [null] in an array. *)
Fixpoint serialize (gap indent : jsstring) (v : value) : option jsstring :=
  let inner := indent ++ gap in
  let wrap (opening closing : jsstring) (parts : list jsstring) :=
    match parts, gap with
    | [], _ => opening ++ closing
    | _, [] => opening ++ join (lit ",") parts ++ closing
    | _, _ =>
        opening ++ newline ++ inner
        ++ join (lit "," ++ newline ++ inner) parts
        ++ newline ++ indent ++ closing
    end in
  match v with
  | VUndefined => None
  | VNull => Some (lit "null")
  | VBool true => Some (lit "true")
  | VBool false => Some (lit "false")
  | VNum n => Some (if is_finite n then number_to_string n else lit "null")
  | VStr s => Some (quote s)
  | VArr l =>
      Some (wrap (lit "[") (lit "]")
              (map (fun e => match serialize gap inner e with
                             | Some t => t
                             | None => lit "null"
                             end) l))
  | VObj props =>
      Some (wrap (lit "{") (lit "}")
              (flat_map (fun '(k, e) =>
                           match serialize gap inner e with
                           | Some t =>
                               [quote k ++ lit ":"
                                ++ match gap with [] => [] | _ => lit " " end
                                ++ t]
                           | None => []
                           end) props))
  end.

(** [JSON.stringify(v)] and [JSON.stringify(v, null, 2)], as values. *)
Definition of_option (o : option jsstring) : value :=
  match o with
  | Some s => VStr s
  | None => VUndefined
  end.

Definition JSON_stringify (v : value) : value := of_option (serialize [] [] v).

Definition JSON_stringify_pretty (v : value) : value :=
  of_option (serialize (lit "  ") [] v).

End JS.

(* ================================================================== *)
(** ** Effects of an invocation *)
(* ================================================================== *)

Module Run.
Import JS.

(** An outbound HTTP call, as the global [fetch] receives it.  [req_body]
    is [undefined] when the call passes no body. *)
Record http_request : Type := {
  req_url : jsstring;
  req_method : jsstring;
  req_headers : list (jsstring * jsstring);
  req_body : value
}.

(** What the worker reads of an answer: the status and the outcome of
    parsing the body as JSON ([None]: the body is not JSON). *)
Record http_response : Type := {
  res_status : Z;
  res_json : option value
}.

(** [response.ok] *)
Definition res_ok (r : http_response) : bool :=
  ((200 <=? res_status r) && (res_status r <=? 299))%Z.

(** An outbound call either rejects (no answer could be obtained) or
    resolves with an answer, whatever its status. *)
Inductive outcome : Type :=
| Rejects
| Responds (r : http_response).

(** The network of one invocation: the outcome of its n-th outbound call. *)
Definition network := nat -> outcome.

(** What an invocation leaves behind: the outbound calls, oldest first, and
    the lines written to the console. *)
Record state : Type := {
  calls : list http_request;
  console : list (jsstring * error)
}.

Definition initial : state := {| calls := []; console := [] |}.

(** Computations of the worker: they read the network, thread the state
    and complete normally or by throwing. *)
Definition M (A : Type) : Type := network -> state -> completion A * state.

Definition ret {A} (a : A) : M A := fun _ st => (Normal a, st).

Definition throw {A} (e : error) : M A := fun _ st => (Throws e, st).

Definition bind {A B} (m : M A) (k : A -> M B) : M B :=
  fun net st =>
    match m net st with
    | (Normal a, st') => k a net st'
    | (Throws e, st') => (Throws e, st')
    end.

(** [try { m } catch (e) { h e }] *)
Definition try_catch {A} (m : M A) (h : error -> M A) : M A :=
  fun net st =>
    match m net st with
    | (Normal a, st') => (Normal a, st')
    | (Throws e, st') => h e net st'
    end.

Definition lift {A} (c : completion A) : M A := fun _ st => (c, st).

(** The global [fetch]: the call is recorded, the network decides. *)
Definition fetch (r : http_request) : M http_response :=
  fun net st =>
    let st' := {| calls := calls st ++ [r]; console := console st |} in
    match net (List.length (calls st)) with
    | Rejects => (Throws NetworkError, st')
    | Responds a => (Normal a, st')
    end.

(** [response.json()] *)
Definition json (r : http_response) : M value :=
  match res_json r with
  | Some v => ret v
  | None => throw SyntaxError
  end.

(** [console.error(label, e)]: the line keeps the label and the error
    (the source prints the error or its message). *)
Definition console_error (label : jsstring) (e : error) : M unit :=
  fun _ st =>
    (Normal tt, {| calls := calls st; console := console st ++ [(label, e)] |}).

Definition run {A} (m : M A) (net : network) : completion A * state :=
  m net initial.

End Run.

Declare Scope js_scope.
Delimit Scope js_scope with js.
Notation "x <- m ;; k" := (Run.bind m (fun x => k))
  (at level 100, m at next level, right associativity) : js_scope.
Notation "m ;;; k" := (Run.bind m (fun _ => k))
  (at level 100, right associativity) : js_scope.

(* ================================================================== *)
(** ** The worker *)
(* ================================================================== *)

Module Worker.
Import JS.
Import Run.
Local Open Scope js_scope.

(** The request as the handler reads it: [new URL(request.url).pathname],
    [request.method] and the outcome of [request.json()]. *)
Record Request : Type := {
  pathname : jsstring;
  method : jsstring;
  body_json : option value
}.

(** The environment bindings: the string of a secret, or [undefined] for a
    binding that is not set. *)
Record Env : Type := {
  BOT_TOKEN : value;
  WORKER_URL : value
}.

Record Response : Type := {
  status : Z;
  body : jsstring;
  headers : list (jsstring * jsstring)
}.

(** [new Response(body)] and [new Response(body, { status })] *)
Definition new_Response (b : jsstring) : Response :=
  {| status := 200; body := b; headers := [] |}.

Definition new_Response_status (b : jsstring) (st : Z) : Response :=
  {| status := st; body := b; headers := [] |}.

Definition text_html : list (jsstring * jsstring) :=
  [(lit "Content-Type", lit "text/html")].

Definition dquote : jsstring := [34%N].

(** [v.k] inside a computation *)
Definition prop (v : value) (k : string) : M value := lift (get v (lit k)).

(** [request.json()] *)
Definition request_json (r : Request) : M value :=
  match body_json r with
  | Some v => ret v
  | None => throw SyntaxError
  end.

(** [text.trim()]: only a string has the method. *)
Definition call_trim (v : value) : completion jsstring :=
  match v with
  | VStr s => Normal (trim s)
  | _ => Throws TypeError
  end.

(** A parameter with default value [d]: an argument that is [undefined]
    (or not passed) takes the default. *)
Definition default_param (v d : value) : value :=
  match v with
  | VUndefined => d
  | _ => v
  end.

Definition GET (u : jsstring) : http_request :=
  {| req_url := u; req_method := lit "GET"; req_headers := [];
     req_body := VUndefined |}.

(** The body of [sendMessage]'s call, field by field. *)
Definition payload (chatId text replyMarkup replyToMessageId : value)
  : list (jsstring * value) :=
  [(lit "chat_id", chatId); (lit "text", text);
   (lit "parse_mode", VStr (lit "HTML"))]
  ++ (if truthy replyMarkup
      then [(lit "reply_markup", JSON_stringify replyMarkup)] else [])
  ++ (if truthy replyToMessageId
      then [(lit "reply_to_message_id", replyToMessageId)] else []).

Definition sendMessage_request
  (token chatId text replyMarkup replyToMessageId : value) : http_request :=
  {| req_url :=
       lit "https://api.telegram.org/bot" ++ ToString token
       ++ lit "/sendMessage";
     req_method := lit "POST";
     req_headers := [(lit "Content-Type", lit "application/json")];
     req_body :=
       JSON_stringify
         (VObj (payload chatId text replyMarkup replyToMessageId)) |}.

(** [sendMessage(token, chatId, text, replyMarkup = null,
    replyToMessageId = null)], lines 123-146: the delivery call is awaited
    and nothing is caught. *)
Definition sendMessage
  (token chatId text replyMarkup replyToMessageId : value) : M unit :=
  let replyMarkup := default_param replyMarkup VNull in
  let replyToMessageId := default_param replyToMessageId VNull in
  _ <- Run.fetch
         (sendMessage_request token chatId text replyMarkup replyToMessageId) ;;
  ret tt.

Definition OK : Response := new_Response (lit "OK").

Definition notice_text : jsstring := lit "I only work in group chats.".

Definition apology_text : jsstring :=
  lit "Sorry, something went wrong while searching.".

Definition search_url (encoded : jsstring) : jsstring :=
  lit "https://tga-hd.api.hashhackers.com/files/search?q=" ++ encoded.

Definition button_url (encoded : jsstring) : jsstring :=
  lit "https://gods-eye.pages.dev/?q=" ++ encoded ++ lit "&t=files".

(** The label of the button as the source file spells it: the four
    characters U+00F0 U+0178 U+201D U+2014, then [ Get Results]. *)
Definition button_label : jsstring :=
  [0xF0; 0x178; 0x201D; 0x2014]%N ++ lit " Get Results".

Definition reply_markup (buttonUrl : jsstring) : value :=
  VObj [(lit "inline_keyboard",
         VArr [VArr [VObj [(lit "text", VStr button_label);
                           (lit "url", VStr buttonUrl)]]])].

Definition found_text (resultCount query : jsstring) : jsstring :=
  lit "Found " ++ resultCount ++ lit " result(s) for " ++ dquote
  ++ query ++ dquote ++ lit ".".

Definition no_results_text (query : jsstring) : jsstring :=
  lit "No results found for " ++ dquote ++ query ++ dquote
  ++ lit ". Please try a different search term.".

(** [searchData && searchData.files && searchData.files.length > 0] *)
Definition has_results (searchData : value) : M bool :=
  if truthy searchData then
    files <- prop searchData "files" ;;
    if truthy files then
      len <- prop files "length" ;;
      lift (gt_zero len)
    else ret false
  else ret false.

(** The [try] block of [handleUpdate], lines 77-104: search, then reply. *)
Definition search_and_reply
  (botToken message chatId : value) (query : jsstring) : M unit :=
  encoded <- lift (encodeURIComponent query) ;;
  searchResponse <- Run.fetch (GET (search_url encoded)) ;;
  if negb (res_ok searchResponse) then
    throw (Error (lit "API search failed with status: "
                  ++ number_to_string (res_status searchResponse)))
  else
    searchData <- json searchResponse ;;
    found <- has_results searchData ;;
    if found then
      resultCount <- prop searchData "total_files" ;;
      printed <- lift (ToString_value resultCount) ;;
      let responseText := found_text printed query in
      encoded' <- lift (encodeURIComponent query) ;;
      let replyMarkup := reply_markup (button_url encoded') in
      message_id <- prop message "message_id" ;;
      sendMessage botToken chatId (VStr responseText) replyMarkup message_id
    else
      let responseText := no_results_text query in
      message_id <- prop message "message_id" ;;
      sendMessage botToken chatId (VStr responseText) VNull message_id.

(** [handleUpdate(update, botToken)], lines 51-113.  The handler of the
    [catch] sends the apology outside any guard. *)
Definition handleUpdate (update botToken : value) : M Response :=
  message <- prop update "message" ;;
  if negb (truthy message) then ret OK else
  text <- prop message "text" ;;
  if negb (truthy text) then ret OK else
  chat <- prop message "chat" ;;
  chatId <- prop chat "id" ;;
  chatType <- prop chat "type" ;;
  query <- lift (call_trim text) ;;
  if negb (strict_eq_str chatType (lit "group"))
     && negb (strict_eq_str chatType (lit "supergroup")) then
    (if strict_eq_str chatType (lit "private") then
       sendMessage botToken chatId (VStr notice_text) VUndefined VUndefined
     else ret tt) ;;;
    ret OK
  else if startsWith query (lit "/") || jseq query [] then ret OK
  else
    try_catch
      (search_and_reply botToken message chatId query)
      (fun error =>
         console_error (lit "Error during search or send:") error ;;;
         sendMessage botToken chatId (VStr apology_text)
           VUndefined VUndefined) ;;;
    ret OK.

Definition setWebhook_url (botToken : value) (encoded : jsstring) : jsstring :=
  lit "https://api.telegram.org/bot" ++ ToString botToken
  ++ lit "/setWebhook?url=" ++ encoded ++ lit "&drop_pending_updates=true".

(** [setWebhook(requestUrl, botToken, env)], lines 154-178; the body does
    not use [requestUrl]. *)
Definition setWebhook (botToken : value) (env : Env) : M Response :=
  let workerUrl := WORKER_URL env in
  if negb (truthy workerUrl) then
    ret (new_Response_status (lit "WORKER_URL secret is not set") 500)
  else
    let webhookUrl := ToString workerUrl in
    encoded <- lift (encodeURIComponent webhookUrl) ;;
    response <- Run.fetch (GET (setWebhook_url botToken encoded)) ;;
    result <- json response ;;
    ok <- prop result "ok" ;;
    if truthy ok then
      ret {| status := 200;
             body := lit "Webhook set successfully to " ++ webhookUrl
                     ++ newline ++ lit "<pre>"
                     ++ ToString (JSON_stringify_pretty result)
                     ++ lit "</pre>";
             headers := text_html |}
    else
      ret {| status := 500;
             body := lit "Failed to set webhook." ++ newline ++ lit "<pre>"
                     ++ ToString (JSON_stringify_pretty result)
                     ++ lit "</pre>";
             headers := text_html |}.

Definition hello_text : jsstring :=
  lit "Hello! This is the Telegram bot worker. Use the /setwebhook endpoint to configure the bot.".

(** The exported handler, lines 17-43.  The [try] around the parsing of
    the body also holds the call of [handleUpdate]. *)
Definition fetch (request : Request) (env : Env) : M Response :=
  let path := pathname request in
  let botToken := BOT_TOKEN env in
  if negb (truthy botToken) then
    ret (new_Response_status (lit "BOT_TOKEN secret is not set") 500)
  else if jseq path (lit "/setwebhook") then
    setWebhook botToken env
  else if jseq (method request) (lit "POST") then
    try_catch
      (update <- request_json request ;;
       handleUpdate update botToken)
      (fun e =>
         console_error (lit "Error parsing update:") e ;;;
         ret (new_Response_status (lit "Invalid request body") 400))
  else ret (new_Response hello_text).

End Worker.

(* ================================================================== *)
(** ** Vocabulary of the properties *)
(* ================================================================== *)

Module Props.
Import JS.
Import Run.
Import Worker.

(** An optional field of a message: supplied when the value is truthy. *)
Definition supplied (v : value) : option value :=
  if truthy v then Some v else None.

Definition optional_field (k : string) (o : option value)
  : list (jsstring * value) :=
  match o with
  | Some v => [(lit k, v)]
  | None => []
  end.

(** A message sent to the chat platform: [POST
    https://api.telegram.org/bot<credential>/sendMessage] with the JSON body
    [{chat_id, text, parse_mode: "HTML", reply_markup?, reply_to_message_id?}],
    the markup as a JSON-encoded string. *)
Definition message_call (token chatId : value) (text : jsstring)
  (markup replyTo : option value) : http_request :=
  {| req_url :=
       lit "https://api.telegram.org/bot" ++ ToString token
       ++ lit "/sendMessage";
     req_method := lit "POST";
     req_headers := [(lit "Content-Type", lit "application/json")];
     req_body :=
       JSON_stringify
         (VObj ([(lit "chat_id", chatId); (lit "text", VStr text);
                 (lit "parse_mode", VStr (lit "HTML"))]
                ++ optional_field "reply_markup"
                     (option_map JSON_stringify markup)
                ++ optional_field "reply_to_message_id" replyTo)) |}.

(** The inline keyboards that hold exactly one button, with URL [url]. *)
Definition one_button (markup : value) (url : jsstring) : Prop :=
  exists label,
    markup = VObj [(lit "inline_keyboard",
                    VArr [VArr [VObj [(lit "text", VStr label);
                                      (lit "url", VStr url)]]])].

(** The update carries the text message [message], with text [text], of the
    chat [chatId] of type [chatType]. *)
Definition text_update
  (update message : value) (text : jsstring) (chatId chatType : value) : Prop :=
  get update (lit "message") = Normal message /\
  get message (lit "text") = Normal (VStr text) /\
  exists chat,
    get message (lit "chat") = Normal chat /\
    get chat (lit "id") = Normal chatId /\
    get chat (lit "type") = Normal chatType.

Definition is_group (chatType : value) : Prop :=
  chatType = VStr (lit "group") \/ chatType = VStr (lit "supergroup").

(** The update is a text message of a group whose trimmed text [query] is
    searched for: it is neither empty nor a command. *)
Definition search_update
  (update message chatId : value) (query : jsstring) : Prop :=
  exists text chatType,
    text_update update message text chatId chatType /\
    is_group chatType /\
    trim text = query /\
    query <> [] /\ startsWith query (lit "/") = false.

(** The search call rejects, is answered with a status outside 2xx, or
    with a body that is not JSON. *)
Definition search_fails (o : outcome) : Prop :=
  o = Rejects \/
  exists r, o = Responds r /\ (res_ok r = false \/ res_json r = None).

(** The search call is answered 2xx with the JSON document [data]. *)
Definition search_returns (o : outcome) (data : value) : Prop :=
  exists r, o = Responds r /\ res_ok r = true /\ res_json r = Some data.

(** There is no non-empty array of files in [data]: the document is falsy
    ([null], ...), or its [files] is missing, falsy or the empty array. *)
Definition no_files (data : value) : Prop :=
  truthy data = false \/
  exists files,
    get data (lit "files") = Normal files
    /\ (truthy files = false \/ files = VArr []).

(** The messages among the outbound calls: [sendMessage] alone posts. *)
Definition is_message (r : http_request) : bool :=
  jseq (req_method r) (lit "POST").

Definition messages (st : state) : list http_request :=
  filter is_message (calls st).

End Props.

(* ================================================================== *)
(** ** Concrete invocations *)
(* ================================================================== *)

Module Examples.
Import JS.
Import Run.
Import Worker.

Definition token : value := VStr (lit "123:ABC").

Definition env_ok : Env :=
  {| BOT_TOKEN := token; WORKER_URL := VStr (lit "https://bot.example.workers.dev") |}.

Definition env_no_token : Env :=
  {| BOT_TOKEN := VUndefined; WORKER_URL := VStr (lit "https://bot.example.workers.dev") |}.

Definition env_no_url : Env :=
  {| BOT_TOKEN := token; WORKER_URL := VUndefined |}.

Definition chat_of (type : string) : value :=
  VObj [(lit "id", VNum (-1001)); (lit "type", VStr (lit type))].

Definition message_of (type text : string) : value :=
  VObj [(lit "message_id", VNum 7); (lit "chat", chat_of type);
        (lit "text", VStr (lit text))].

Definition update_of (type text : string) : value :=
  VObj [(lit "update_id", VNum 1); (lit "message", message_of type text)].

Definition post (b : option value) : Request :=
  {| pathname := lit "/"; method := lit "POST"; body_json := b |}.

Definition answer (st : Z) (b : option value) : outcome :=
  Responds {| res_status := st; res_json := b |}.

Definition search_data (total : Z) (files : list value) : value :=
  VObj [(lit "total_files", VNum total); (lit "files", VArr files)].

Definition a_file : value := VObj [(lit "name", VStr (lit "report.pdf"))].

(** A count that cannot be printed, and a message with the identifier 0. *)
Definition odd_count : value := VObj [(lit "toString", VNum 1)].

Definition odd_data : value :=
  VObj [(lit "total_files", odd_count);
        (lit "files", VArr [a_file; a_file; a_file])].

Definition update_with_id_0 : value :=
  VObj [(lit "update_id", VNum 1);
        (lit "message",
         VObj [(lit "message_id", VNum 0); (lit "chat", chat_of "group");
               (lit "text", VStr (lit "report"))])].

Definition telegram_ok : outcome :=
  answer 200 (Some (VObj [(lit "ok", VBool true)])).

(** Every outbound call rejects. *)
Definition net_down : network := fun _ => Rejects.

(** The search answers [o], every later call is delivered. *)
Definition net_search (o : outcome) : network :=
  fun n => match n with O => o | _ => telegram_ok end.

(** The search answers [o], the next call rejects. *)
Definition net_search_then_down (o : outcome) : network :=
  fun n => match n with O => o | _ => Rejects end.

End Examples.

(* ================================================================== *)
(** ** Vocabulary of the invocations as a whole *)
(* ================================================================== *)

Module Traces.
Import JS.
Import Run.
Import Worker.
Import Props.

(** How an awaited delivery ends for [handleUpdate] when nothing guards it:
    a rejection is thrown, an answer lets the function return [OK]. *)
Definition delivered (o : outcome) : completion Response :=
  match o with
  | Rejects => Throws NetworkError
  | Responds _ => Normal OK
  end.

Definition guard_label : jsstring := lit "Error during search or send:".

(** [query] is searched for: it is neither empty nor a command, and
    [encoded] is its encoding in the URL of the search call. *)
Definition searched (query encoded : jsstring) : Prop :=
  encodeURIComponent query = Normal encoded /\
  query <> [] /\ startsWith query (lit "/") = false.

(** Every way an invocation of [handleUpdate] can end: the completion, the
    outbound calls and the console.  [handled_no_reply]: the search has
    answered and the reply could not be built ([files.length > 0] or the
    printing of [total_files] threw). *)
Inductive handled (botToken : value) (net : network)
  : completion Response * state -> Prop :=
| handled_malformed :
    handled botToken net (Throws TypeError, initial)
| handled_ignored :
    handled botToken net (Normal OK, initial)
| handled_notice (chatId : value) :
    handled botToken net
      (delivered (net O),
       {| calls := [message_call botToken chatId notice_text None None];
          console := [] |})
| handled_unencodable (chatId : value) (query : jsstring) (e : error) :
    encodeURIComponent query = Throws e ->
    handled botToken net
      (delivered (net O),
       {| calls := [message_call botToken chatId apology_text None None];
          console := [(guard_label, e)] |})
| handled_search_failed (chatId : value) (query encoded : jsstring) (e : error) :
    searched query encoded ->
    search_fails (net O) ->
    handled botToken net
      (delivered (net 1%nat),
       {| calls := [GET (search_url encoded);
                    message_call botToken chatId apology_text None None];
          console := [(guard_label, e)] |})
| handled_no_reply (chatId : value) (query encoded : jsstring) (data : value) :
    searched query encoded ->
    search_returns (net O) data ->
    handled botToken net
      (delivered (net 1%nat),
       {| calls := [GET (search_url encoded);
                    message_call botToken chatId apology_text None None];
          console := [(guard_label, TypeError)] |})
| handled_replied (chatId : value) (query encoded text : jsstring)
    (markup replyTo : option value) (data : value) (r : http_response) :
    searched query encoded ->
    search_returns (net O) data ->
    net 1%nat = Responds r ->
    handled botToken net
      (Normal OK,
       {| calls := [GET (search_url encoded);
                    message_call botToken chatId text markup replyTo];
          console := [] |})
| handled_reply_failed (chatId : value) (query encoded text : jsstring)
    (markup replyTo : option value) (data : value) :
    searched query encoded ->
    search_returns (net O) data ->
    net 1%nat = Rejects ->
    handled botToken net
      (delivered (net 2%nat),
       {| calls := [GET (search_url encoded);
                    message_call botToken chatId text markup replyTo;
                    message_call botToken chatId apology_text None None];
          console := [(guard_label, NetworkError)] |}).

(** A message of the bot [botToken] to the chat [chatId]. *)
Definition bot_message (botToken chatId : value) (r : http_request) : Prop :=
  exists text markup replyTo,
    r = message_call botToken chatId text markup replyTo.

(** A call of the search API for a query that is searched for. *)
Definition search_call (r : http_request) : Prop :=
  exists query encoded, searched query encoded /\ r = GET (search_url encoded).

(** The outbound calls [handleUpdate] can leave behind: nothing, one
    message, a search and a message, or a search, a message and the apology;
    all messages go to one chat. *)
Definition trace_shape (botToken : value) (l : list http_request) : Prop :=
  l = [] \/
  exists chatId,
    (exists m, l = [m] /\ bot_message botToken chatId m) \/
    (exists s m, l = [s; m] /\ search_call s /\ bot_message botToken chatId m) \/
    (exists s m,
       l = [s; m; message_call botToken chatId apology_text None None]
       /\ search_call s /\ bot_message botToken chatId m).

Definition nullish (v : value) : Prop := v = VUndefined \/ v = VNull.

(** JSON documents that carry a message with a truthy text and yet are no
    text message: the chat is missing, or the text is not a string; and the
    document [null]. *)
Definition misshapen (update : value) : Prop :=
  update = VNull \/
  exists message text,
    get update (lit "message") = Normal message /\
    get message (lit "text") = Normal text /\
    truthy text = true /\
    ((exists chat, get message (lit "chat") = Normal chat /\ nullish chat)
     \/ (forall s, text <> VStr s)).

(** Chat types [handleUpdate] does not tell apart. *)
Definition same_kind (t1 t2 : value) : Prop :=
  t1 = t2 \/ (is_group t1 /\ is_group t2).

(** Code units of a string; what [encodeURIComponent] leaves in its
    result: unreserved characters and the percent sign. *)
Definition code_units (s : jsstring) : Prop := Forall (fun c => (c < 65536)%N) s.

Definition url_safe (c : N) : Prop := uriUnreserved c = true \/ c = 37%N.

End Traces.

(* ================================================================== *)
(** ** Properties *)
(* ================================================================== *)

Import JS Run Worker Props Examples.
Import Traces.
Local Open Scope js_scope.

(** *** The runtime fragment on examples *)

Example trim_report : trim (lit "  report ") = lit "report".
Proof. reflexivity. Qed.

Example trim_blank : trim ([9; 160; 8232; 65279]%N ++ lit "  ") = [].
Proof. reflexivity. Qed.

Example encode_plain : encodeURIComponent (lit "report") = Normal (lit "report").
Proof. reflexivity. Qed.

Example encode_reserved :
  encodeURIComponent (lit "a b&c/d") = Normal (lit "a%20b%26c%2Fd").
Proof. reflexivity. Qed.

Example encode_pair :
  encodeURIComponent [0xD83D; 0xDD17]%N = Normal (lit "%F0%9F%94%97").
Proof. reflexivity. Qed.

Example encode_lone_surrogate :
  encodeURIComponent (lit "a" ++ [0xD83D]%N) = Throws URIError.
Proof. reflexivity. Qed.

Example stringify_array :
  JSON_stringify (VArr [VNum 1; VNull; VUndefined; VBool true; VArr []])
  = VStr (lit "[1,null,null,true,[]]").
Proof. reflexivity. Qed.

Example stringify_skips_undefined :
  JSON_stringify (VObj [(lit "chat_id", VUndefined)]) = VStr (lit "{}").
Proof. reflexivity. Qed.

Example to_string_array :
  ToString (VArr [VNum 1; VNull; VArr [VNum 2; VNum (-3)]]) = lit "1,,2,-3".
Proof. reflexivity. Qed.

Example length_of_numeric_string_positive :
  gt_zero (VStr (lit " 12e-1 ")) = Normal true
  /\ gt_zero (VStr (lit "1e-400")) = Normal false
  /\ gt_zero (VStr (lit "0x0")) = Normal false
  /\ gt_zero (VArr [VNum 5]) = Normal true.
Proof. repeat split. Qed.

Example own_toString_throws :
  ToString_value (VObj [(lit "toString", VNum 1)]) = Throws TypeError
  /\ ToString_value (VArr [VNum 1; VObj [(lit "toString", VNull)]])
     = Throws TypeError
  /\ gt_zero (VObj [(lit "toString", VNum 1)]) = Throws TypeError
  /\ ToString_value (VObj [(lit "valueOf", VNum 1)])
     = Normal (lit "[object Object]")
  /\ gt_zero (VObj [(lit "valueOf", VNum 1)]) = Normal false.
Proof. repeat split. Qed.

Example numbers_print_as_doubles :
  number_to_string 9007199254740993 = lit "9007199254740992"
  /\ number_to_string 18446744073709551616 = lit "18446744073709552000"
  /\ number_to_string (-1152921504606846976) = lit "-1152921504606847000"
  /\ number_to_string 999999999999999999999 = lit "1e+21"
  /\ number_to_string 123456789012345678901234567890
     = lit "1.2345678901234568e+29"
  /\ number_to_string (2 ^ 1024) = lit "Infinity"
  /\ JSON_stringify (VArr [VNum (2 ^ 1024); VNum (2 ^ 64)])
     = VStr (lit "[null,18446744073709552000]").
Proof. repeat split; vm_compute; reflexivity. Qed.

(** *** Strings and values *)

Lemma jseq_refl (s : jsstring) : jseq s s = true.
Proof. unfold jseq. destruct (list_eq_dec N.eq_dec s s); congruence. Qed.


Lemma jseq_neq (a b : jsstring) : a <> b -> jseq a b = false.
Proof. unfold jseq. destruct (list_eq_dec N.eq_dec a b); congruence. Qed.


Lemma strict_eq_str_neq (v : value) (s : jsstring) :
  v <> VStr s -> strict_eq_str v s = false.
Proof.
  destruct v; simpl; trivial.
  intros H. apply jseq_neq. congruence.
Qed.

Lemma get_string_truthy (m : value) (k t : jsstring) :
  get m k = Normal (VStr t) -> truthy m = true.
Proof.
  destruct m; simpl; try discriminate; trivial;
    destruct (jseq k (lit "length")); discriminate.
Qed.

Lemma truthy_string (t : jsstring) : t <> [] -> truthy (VStr t) = true.
Proof. destruct t; simpl; congruence. Qed.


(** *** Steps of a computation *)

Lemma bind_prop {B} (v : value) (k : string) (x : value) (f : value -> M B) :
  get v (lit k) = Normal x -> bind (prop v k) f = f x.
Proof. intros H. unfold bind, prop, lift. rewrite H. reflexivity. Qed.

Lemma bind_lift {A B} (x : A) (f : A -> M B) : bind (lift (Normal x)) f = f x.
Proof. reflexivity. Qed.

Lemma bind_ret {A B} (x : A) (f : A -> M B) : bind (ret x) f = f x.
Proof. reflexivity. Qed.


(** [handleUpdate] once the fields of a text message are read. *)
Lemma handleUpdate_text (update botToken message chatId chatType : value)
  (text : jsstring) :
  text_update update message text chatId chatType ->
  text <> [] ->
  handleUpdate update botToken =
  (if negb (strict_eq_str chatType (lit "group"))
      && negb (strict_eq_str chatType (lit "supergroup")) then
     (if strict_eq_str chatType (lit "private") then
        sendMessage botToken chatId (VStr notice_text) VUndefined VUndefined
      else ret tt) ;;;
     ret OK
   else if startsWith (trim text) (lit "/") || jseq (trim text) [] then ret OK
   else
     try_catch
       (search_and_reply botToken message chatId (trim text))
       (fun error =>
          console_error (lit "Error during search or send:") error ;;;
          sendMessage botToken chatId (VStr apology_text)
            VUndefined VUndefined) ;;;
     ret OK).
Proof.
  intros (Hm & Ht & chat & Hc & Hid & Hty) Hne.
  unfold handleUpdate.
  rewrite (bind_prop _ _ _ _ Hm), (get_string_truthy _ _ _ Ht).
  cbn [negb]. rewrite (bind_prop _ _ _ _ Ht), (truthy_string _ Hne).
  cbn [negb].
  rewrite (bind_prop _ _ _ _ Hc), (bind_prop _ _ _ _ Hid),
    (bind_prop _ _ _ _ Hty).
  reflexivity.
Qed.

Lemma handleUpdate_empty_text (update botToken message chatId chatType : value) :
  text_update update message [] chatId chatType ->
  handleUpdate update botToken = ret OK.
Proof.
  intros (Hm & Ht & _).
  unfold handleUpdate.
  rewrite (bind_prop _ _ _ _ Hm), (get_string_truthy _ _ _ Ht).
  cbn [negb]. rewrite (bind_prop _ _ _ _ Ht). reflexivity.
Qed.

Lemma group_dispatch (chatType : value) :
  is_group chatType ->
  negb (strict_eq_str chatType (lit "group"))
  && negb (strict_eq_str chatType (lit "supergroup")) = false.
Proof. intros [-> | ->]; reflexivity. Qed.

(** C8. A text message of a group or supergroup whose trimmed text starts
    with [/] or is empty is acknowledged with status 200, and neither the
    search nor a send is attempted: the invocation makes no outbound call. *)
Theorem command_or_empty_is_ignored
  (net : network) (update botToken message chatId chatType : value)
  (text : jsstring) :
  text_update update message text chatId chatType ->
  is_group chatType ->
  startsWith (trim text) (lit "/") = true \/ trim text = [] ->
  run (handleUpdate update botToken) net
  = (Normal {| status := 200; body := lit "OK"; headers := [] |},
     {| calls := []; console := [] |}).
Proof.
  intros Hu Hg Hq.
  destruct text as [| c text'].
  - rewrite (handleUpdate_empty_text _ _ _ _ _ Hu). reflexivity.
  - rewrite (handleUpdate_text _ _ _ _ _ _ Hu) by discriminate.
    rewrite (group_dispatch _ Hg).
    destruct Hq as [-> | ->]; reflexivity.
Qed.

Lemma command_or_empty_is_ignored_witness :
  run (handleUpdate (update_of "supergroup" "  /start now ") token) net_down
  = (Normal {| status := 200; body := lit "OK"; headers := [] |},
     {| calls := []; console := [] |}).
Proof.
  apply (command_or_empty_is_ignored net_down _ token
           (message_of "supergroup" "  /start now ") (VNum (-1001))
           (VStr (lit "supergroup")) (lit "  /start now ")).
  - repeat split. exists (chat_of "supergroup"). repeat split.
  - right. reflexivity.
  - left. reflexivity.
Defined.

(** *** Sending *)

Lemma supplied_default (v : value) :
  supplied (default_param v VNull) = supplied v.
Proof. destruct v; reflexivity. Qed.

Lemma payload_fields (chatId : value) (text : jsstring) (mk mid : value) :
  payload chatId (VStr text) mk mid =
  [(lit "chat_id", chatId); (lit "text", VStr text);
   (lit "parse_mode", VStr (lit "HTML"))]
  ++ optional_field "reply_markup" (option_map JSON_stringify (supplied mk))
  ++ optional_field "reply_to_message_id" (supplied mid).
Proof.
  unfold payload, supplied.
  destruct (truthy mk), (truthy mid); reflexivity.
Qed.

Lemma sendMessage_request_message
  (token chatId : value) (text : jsstring) (mk mid : value) :
  sendMessage_request token chatId (VStr text)
    (default_param mk VNull) (default_param mid VNull)
  = message_call token chatId text (supplied mk) (supplied mid).
Proof.
  unfold sendMessage_request, message_call.
  rewrite payload_fields, !supplied_default. reflexivity.
Qed.

Lemma sendMessage_at
  (token chatId text mk mid : value) (net : network) (st : state) :
  sendMessage token chatId text mk mid net st =
  (match net (List.length (calls st)) with
   | Rejects => Throws NetworkError
   | Responds _ => Normal tt
   end,
   {| calls := calls st
               ++ [sendMessage_request token chatId text
                     (default_param mk VNull) (default_param mid VNull)];
      console := console st |}).
Proof.
  unfold sendMessage, bind, Run.fetch.
  destruct (net (List.length (calls st))); reflexivity.
Qed.

(** *** The guarded block *)

Lemma trim_nil : trim [] = [].
Proof. reflexivity. Qed.

Lemma handleUpdate_search
  (update botToken message chatId : value) (query : jsstring) :
  search_update update message chatId query ->
  handleUpdate update botToken =
  (try_catch
     (search_and_reply botToken message chatId query)
     (fun error =>
        console_error (lit "Error during search or send:") error ;;;
        sendMessage botToken chatId (VStr apology_text)
          VUndefined VUndefined) ;;;
   ret OK).
Proof.
  intros (text & chatType & Hu & Hg & <- & Hne & Hsl).
  rewrite (handleUpdate_text _ _ _ _ _ _ Hu).
  - rewrite (group_dispatch _ Hg), Hsl, (jseq_neq _ _ Hne). reflexivity.
  - intros ->. apply Hne, trim_nil.
Qed.

Lemma get_array_truthy (m : value) (k : jsstring) (l : list value) :
  get m k = Normal (VArr l) -> truthy m = true.
Proof.
  destruct m; simpl; try discriminate; trivial;
    destruct (jseq k (lit "length")); discriminate.
Qed.

Lemma has_results_nonempty (data f : value) (fs : list value) :
  get data (lit "files") = Normal (VArr (f :: fs)) ->
  has_results data = ret true.
Proof.
  intros H. unfold has_results.
  rewrite (get_array_truthy _ _ _ H), (bind_prop _ _ _ _ H).
  cbn [truthy]. unfold prop, get. rewrite jseq_refl, bind_lift.
  reflexivity.
Qed.

Lemma bind_fetch_initial {B} (r : http_request) (k : http_response -> M B)
  (net : network) :
  bind (Run.fetch r) k net initial =
  match net O with
  | Rejects => (Throws NetworkError, {| calls := [r]; console := [] |})
  | Responds a => k a net {| calls := [r]; console := [] |}
  end.
Proof. unfold bind, Run.fetch. simpl. destruct (net O); reflexivity. Qed.

(** The handler of the guarded block, run after the search call. *)
Lemma recover_after_search
  (botToken chatId : value) (e : error) (encoded : jsstring) (net : network)
  (more : list http_request) :
  bind
    (console_error (lit "Error during search or send:") e ;;;
     sendMessage botToken chatId (VStr apology_text) VUndefined VUndefined)
    (fun _ => ret OK) net
    {| calls := GET (search_url encoded) :: more; console := [] |}
  = (match net (S (List.length more)) with
     | Rejects => Throws NetworkError
     | Responds _ => Normal OK
     end,
     {| calls := GET (search_url encoded) :: more
                 ++ [message_call botToken chatId apology_text None None];
        console := [(lit "Error during search or send:", e)] |}).
Proof.
  unfold bind at 1 2. unfold console_error.
  rewrite sendMessage_at, sendMessage_request_message.
  cbn [calls console List.length app].
  destruct (net (S (List.length more))); reflexivity.
Qed.

Lemma run_search_fails
  (net : network) (update botToken message chatId : value)
  (query encoded : jsstring) :
  search_update update message chatId query ->
  encodeURIComponent query = Normal encoded ->
  search_fails (net O) ->
  exists e,
    run (handleUpdate update botToken) net =
    (match net 1%nat with
     | Rejects => Throws NetworkError
     | Responds _ => Normal OK
     end,
     {| calls := [GET (search_url encoded);
                  message_call botToken chatId apology_text None None];
        console := [(lit "Error during search or send:", e)] |}).
Proof.
  intros Hu Henc Hfail. unfold run.
  rewrite (handleUpdate_search _ _ _ _ _ Hu).
  unfold bind at 1. unfold try_catch, search_and_reply.
  rewrite Henc, bind_lift, bind_fetch_initial.
  destruct Hfail as [-> | (r & -> & [Hok | Hjson])].
  - exists NetworkError.
    apply (recover_after_search botToken chatId NetworkError encoded net []).
  - rewrite Hok. cbn [negb throw].
    eexists.
    apply (recover_after_search botToken chatId _ encoded net []).
  - destruct (res_ok r); cbn [negb throw].
    + unfold json. rewrite Hjson. unfold bind at 1. cbn [throw].
      exists SyntaxError.
      apply (recover_after_search botToken chatId _ encoded net []).
    + eexists.
      apply (recover_after_search botToken chatId _ encoded net []).
Qed.


(** The reply once the search has answered [data]: [text] is the reply
    text and [mk] the markup the branch taken passes to [sendMessage]. *)
Lemma run_reply
  (net : network) (botToken chatId mk mid : value) (text : jsstring)
  (encoded : jsstring) :
  bind
    (try_catch
       (sendMessage botToken chatId (VStr text) mk mid)
       (fun error =>
          console_error (lit "Error during search or send:") error ;;;
          sendMessage botToken chatId (VStr apology_text)
            VUndefined VUndefined))
    (fun _ => ret OK) net
    {| calls := [GET (search_url encoded)]; console := [] |}
  = match net 1%nat with
    | Responds _ =>
        (Normal OK,
         {| calls := [GET (search_url encoded);
                      message_call botToken chatId text
                        (supplied mk) (supplied mid)];
            console := [] |})
    | Rejects =>
        (match net 2%nat with
         | Rejects => Throws NetworkError
         | Responds _ => Normal OK
         end,
         {| calls := [GET (search_url encoded);
                      message_call botToken chatId text
                        (supplied mk) (supplied mid);
                      message_call botToken chatId apology_text None None];
            console := [(lit "Error during search or send:", NetworkError)] |})
    end.
Proof.
  unfold bind at 1. unfold try_catch.
  rewrite sendMessage_at, sendMessage_request_message.
  cbn [calls console List.length app].
  destruct (net 1%nat).
  - apply (recover_after_search botToken chatId NetworkError encoded net
             [message_call botToken chatId text (supplied mk) (supplied mid)]).
  - reflexivity.
Qed.

Lemma run_search_found
  (net : network) (update botToken message chatId : value)
  (query encoded count : jsstring) (data f total mid : value)
  (fs : list value) :
  search_update update message chatId query ->
  encodeURIComponent query = Normal encoded ->
  search_returns (net O) data ->
  get data (lit "files") = Normal (VArr (f :: fs)) ->
  get data (lit "total_files") = Normal total ->
  ToString_value total = Normal count ->
  get message (lit "message_id") = Normal mid ->
  run (handleUpdate update botToken) net =
  bind
    (try_catch
       (sendMessage botToken chatId (VStr (found_text count query))
          (reply_markup (button_url encoded)) mid)
       (fun error =>
          console_error (lit "Error during search or send:") error ;;;
          sendMessage botToken chatId (VStr apology_text)
            VUndefined VUndefined))
    (fun _ => ret OK) net
    {| calls := [GET (search_url encoded)]; console := [] |}.
Proof.
  intros Hu Henc (r & Hnet & Hok & Hjson) Hfiles Htotal Hcount Hmid.
  unfold run.
  rewrite (handleUpdate_search _ _ _ _ _ Hu).
  unfold bind at 1 3. unfold try_catch at 1 2. unfold search_and_reply.
  rewrite Henc, !bind_lift, bind_fetch_initial, Hnet, Hok.
  cbn [negb]. unfold json. rewrite Hjson, bind_ret.
  rewrite (has_results_nonempty _ _ _ Hfiles), bind_ret.
  rewrite (bind_prop _ _ _ _ Htotal), Hcount, bind_lift. cbv zeta.
  rewrite bind_lift, (bind_prop _ _ _ _ Hmid).
  reflexivity.
Qed.

Lemma has_results_absent (data : value) :
  no_files data -> has_results data = ret false.
Proof.
  intros [Hd | (files & Hf & H)]; unfold has_results.
  - rewrite Hd. reflexivity.
  - destruct (truthy data); [| reflexivity].
    rewrite (bind_prop _ _ _ _ Hf).
    destruct H as [-> | ->]; reflexivity.
Qed.

Lemma run_search_empty
  (net : network) (update botToken message chatId : value)
  (query encoded : jsstring) (data mid : value) :
  search_update update message chatId query ->
  encodeURIComponent query = Normal encoded ->
  search_returns (net O) data ->
  has_results data = ret false ->
  get message (lit "message_id") = Normal mid ->
  run (handleUpdate update botToken) net =
  bind
    (try_catch
       (sendMessage botToken chatId (VStr (no_results_text query)) VNull mid)
       (fun error =>
          console_error (lit "Error during search or send:") error ;;;
          sendMessage botToken chatId (VStr apology_text)
            VUndefined VUndefined))
    (fun _ => ret OK) net
    {| calls := [GET (search_url encoded)]; console := [] |}.
Proof.
  intros Hu Henc (r & Hnet & Hok & Hjson) Hnone Hmid. unfold run.
  rewrite (handleUpdate_search _ _ _ _ _ Hu).
  unfold bind at 1 3. unfold try_catch at 1 2. unfold search_and_reply.
  rewrite Henc, !bind_lift, bind_fetch_initial, Hnet, Hok.
  cbn [negb]. unfold json. rewrite Hjson, bind_ret.
  rewrite Hnone, bind_ret.
  rewrite (bind_prop _ _ _ _ Hmid).
  reflexivity.
Qed.

(** The results are there and the count cannot be printed: the template
    throws and the handler of the guarded block sends the apology. *)
Lemma run_search_unprintable
  (net : network) (update botToken message chatId : value)
  (query encoded : jsstring) (data f total : value) (fs : list value)
  (e : error) :
  search_update update message chatId query ->
  encodeURIComponent query = Normal encoded ->
  search_returns (net O) data ->
  get data (lit "files") = Normal (VArr (f :: fs)) ->
  get data (lit "total_files") = Normal total ->
  ToString_value total = Throws e ->
  run (handleUpdate update botToken) net =
  (match net 1%nat with
   | Rejects => Throws NetworkError
   | Responds _ => Normal OK
   end,
   {| calls := [GET (search_url encoded);
                message_call botToken chatId apology_text None None];
      console := [(lit "Error during search or send:", e)] |}).
Proof.
  intros Hu Henc (r & Hnet & Hok & Hjson) Hfiles Htotal Hcount. unfold run.
  rewrite (handleUpdate_search _ _ _ _ _ Hu).
  unfold bind at 1. unfold try_catch, search_and_reply.
  rewrite Henc, !bind_lift, bind_fetch_initial, Hnet, Hok.
  cbn [negb]. unfold json. rewrite Hjson, bind_ret.
  rewrite (has_results_nonempty _ _ _ Hfiles), bind_ret.
  rewrite (bind_prop _ _ _ _ Htotal), Hcount.
  unfold bind at 1. unfold lift.
  apply (recover_after_search botToken chatId e encoded net []).
Qed.

Lemma startsWith_refl (p : jsstring) : startsWith p p = true.
Proof.
  induction p as [| c p IH]; simpl.
  - reflexivity.
  - rewrite N.eqb_refl. exact IH.
Qed.

Lemma includes_startsWith (s p : jsstring) :
  startsWith s p = true -> includes s p = true.
Proof. intros H. destruct s; cbn [includes]; rewrite H; reflexivity. Qed.

Lemma includes_suffix (a p : jsstring) : includes (a ++ p) p = true.
Proof.
  induction a as [| c a IH].
  - apply includes_startsWith, startsWith_refl.
  - cbn [app includes]. rewrite IH. apply orb_true_r.
Qed.

Lemma button_url_query (encoded : jsstring) :
  includes (button_url encoded) (lit "q=" ++ encoded ++ lit "&t=files") = true.
Proof.
  apply (includes_suffix (lit "https://gods-eye.pages.dev/?")
           (lit "q=" ++ encoded ++ lit "&t=files")).
Qed.

(* ------------------------------------------------------------------ *)
(** *** The send helper *)

(** C2, as the code has it. [sendMessage] makes exactly one delivery call.
    When that call rejects, the rejection reaches the caller: [sendMessage]
    throws.  When it resolves, whatever the status of the answer,
    [sendMessage] returns normally. *)
Theorem sendMessage_outcome
  (net : network) (token chatId text replyMarkup replyToMessageId : value) :
  run (sendMessage token chatId text replyMarkup replyToMessageId) net =
  (match net O with
   | Rejects => Throws NetworkError
   | Responds _ => Normal tt
   end,
   {| calls := [sendMessage_request token chatId text
                  (default_param replyMarkup VNull)
                  (default_param replyToMessageId VNull)];
      console := [] |}).
Proof. unfold run. rewrite sendMessage_at. reflexivity. Qed.

(** C2 as stated fails: with the delivery call rejecting, [sendMessage]
    does not return normally, it throws the network error. *)
Lemma sendMessage_propagates_rejection :
  fst (run (sendMessage token (VNum (-1001)) (VStr notice_text)
              VUndefined VUndefined) net_down)
  = Throws NetworkError.
Proof. reflexivity. Qed.

(* ------------------------------------------------------------------ *)
(** *** The exported handler *)

(** C3. Whatever the request, when [BOT_TOKEN] is absent the handler
    answers status 500 with the body [BOT_TOKEN secret is not set] and makes
    no outbound call. *)
Theorem missing_token_is_500 (net : network) (request : Request) (env : Env) :
  BOT_TOKEN env = VUndefined ->
  run (Worker.fetch request env) net =
  (Normal {| status := 500; body := lit "BOT_TOKEN secret is not set";
             headers := [] |},
   {| calls := []; console := [] |}).
Proof. intros H. unfold run, Worker.fetch. rewrite H. reflexivity. Qed.

Lemma missing_token_is_500_witness :
  BOT_TOKEN env_no_token = VUndefined /\
  run (Worker.fetch (post (Some (update_of "group" "report"))) env_no_token)
    net_down =
  (Normal {| status := 500; body := lit "BOT_TOKEN secret is not set";
             headers := [] |},
   {| calls := []; console := [] |}).
Proof.
  split; [reflexivity |].
  apply (missing_token_is_500 net_down
           (post (Some (update_of "group" "report"))) env_no_token).
  reflexivity.
Defined.

(** C4, as the code has it. With the bot credential set, a POST request
    on a path other than [/setwebhook] whose body is not JSON is answered
    status 400 with the body [Invalid request body], and no outbound call
    is made. *)
Theorem malformed_body_is_400 (net : network) (request : Request) (env : Env) :
  truthy (BOT_TOKEN env) = true ->
  pathname request <> lit "/setwebhook" ->
  method request = lit "POST" ->
  body_json request = None ->
  run (Worker.fetch request env) net =
  (Normal {| status := 400; body := lit "Invalid request body";
             headers := [] |},
   {| calls := []; console := [(lit "Error parsing update:", SyntaxError)] |}).
Proof.
  intros Htok Hpath Hmethod Hbody. unfold run, Worker.fetch.
  rewrite Htok, (jseq_neq _ _ Hpath), Hmethod, jseq_refl.
  cbn [negb]. unfold try_catch, bind, request_json.
  rewrite Hbody. reflexivity.
Qed.

Lemma malformed_body_is_400_witness :
  run (Worker.fetch (post None) env_ok) net_down =
  (Normal {| status := 400; body := lit "Invalid request body";
             headers := [] |},
   {| calls := []; console := [(lit "Error parsing update:", SyntaxError)] |}).
Proof.
  apply (malformed_body_is_400 net_down (post None) env_ok).
  - reflexivity.
  - discriminate.
  - reflexivity.
  - reflexivity.
Defined.

(** C4 as stated fails: a POST request on [/] whose body is not JSON is
    answered 500, not 400, when the bot credential is absent; the credential
    guard comes before the body is read. *)
Lemma malformed_body_without_token_is_500 :
  pathname (post None) <> lit "/setwebhook" /\
  method (post None) = lit "POST" /\
  body_json (post None) = None /\
  run (Worker.fetch (post None) env_no_token) net_down =
  (Normal {| status := 500; body := lit "BOT_TOKEN secret is not set";
             headers := [] |},
   {| calls := []; console := [] |}).
Proof. repeat split. discriminate. Qed.

(** C9. On the route [/setwebhook], with the bot credential set and
    [WORKER_URL] absent, the handler answers status 500 with the diagnostic
    [WORKER_URL secret is not set], and no outbound call has been made. *)
Theorem missing_worker_url_is_500
  (net : network) (request : Request) (env : Env) :
  truthy (BOT_TOKEN env) = true ->
  pathname request = lit "/setwebhook" ->
  WORKER_URL env = VUndefined ->
  run (Worker.fetch request env) net =
  (Normal {| status := 500; body := lit "WORKER_URL secret is not set";
             headers := [] |},
   {| calls := []; console := [] |}).
Proof.
  intros Htok Hpath Hurl. unfold run, Worker.fetch.
  rewrite Htok, Hpath, jseq_refl. cbn [negb].
  unfold setWebhook. rewrite Hurl. reflexivity.
Qed.

Lemma missing_worker_url_is_500_witness :
  run (Worker.fetch
         {| pathname := lit "/setwebhook"; method := lit "GET";
            body_json := None |} env_no_url) net_down =
  (Normal {| status := 500; body := lit "WORKER_URL secret is not set";
             headers := [] |},
   {| calls := []; console := [] |}).
Proof.
  apply (missing_worker_url_is_500 net_down
           {| pathname := lit "/setwebhook"; method := lit "GET";
              body_json := None |} env_no_url); reflexivity.
Defined.

(** C1 fails on the code. A group message [report] arrives in a POST whose
    body is JSON and reaches [handleUpdate]; the search call rejects and so
    does the delivery of the apology.  The rejection leaves [handleUpdate]
    through the handler of its [catch] and is caught in [fetch] by the
    [catch] meant for the parsing of the body: the answer is 400
    [Invalid request body], not 200. *)
Theorem failed_apology_is_answered_400 :
  run (Worker.fetch (post (Some (update_of "group" "report"))) env_ok) net_down
  = (Normal {| status := 400; body := lit "Invalid request body";
               headers := [] |},
     {| calls := [GET (search_url (lit "report"));
                  message_call token (VNum (-1001)) apology_text None None];
        console := [(lit "Error during search or send:", NetworkError);
                    (lit "Error parsing update:", NetworkError)] |}).
Proof. vm_compute. reflexivity. Qed.

(* ------------------------------------------------------------------ *)
(** *** Updates *)



(** C7. An update that carries a text message: in a chat of type
    [private] exactly one outbound call is made, the message with the fixed
    text [I only work in group chats.], and no search; in a chat whose type
    is none of [group], [supergroup], [private] no outbound call is made and
    the update is acknowledged with status 200. *)
Theorem outside_groups
  (net : network) (update botToken message chatId chatType : value)
  (text : jsstring) :
  text_update update message text chatId chatType ->
  text <> [] ->
  (chatType = VStr (lit "private") ->
   calls (snd (run (handleUpdate update botToken) net))
   = [message_call botToken chatId (lit "I only work in group chats.")
        None None])
  /\
  (~ is_group chatType -> chatType <> VStr (lit "private") ->
   run (handleUpdate update botToken) net
   = (Normal {| status := 200; body := lit "OK"; headers := [] |},
      {| calls := []; console := [] |})).
Proof.
  intros Hu Hne. unfold run.
  rewrite (handleUpdate_text _ _ _ _ _ _ Hu Hne). split.
  - intros ->.
    change (negb (strict_eq_str (VStr (lit "private")) (lit "group"))
            && negb (strict_eq_str (VStr (lit "private")) (lit "supergroup")))
      with true.
    change (strict_eq_str (VStr (lit "private")) (lit "private")) with true.
    cbv iota. unfold bind. rewrite sendMessage_at.
    rewrite (sendMessage_request_message botToken chatId notice_text
               VUndefined VUndefined).
    destruct (net (List.length (calls initial))); reflexivity.
  - intros Hg Hp.
    rewrite !strict_eq_str_neq.
    + reflexivity.
    + exact Hp.
    + intros E. apply Hg. right. exact E.
    + intros E. apply Hg. left. exact E.
Qed.

Lemma outside_groups_witness :
  calls (snd (run (handleUpdate (update_of "private" "report") token) net_down))
  = [message_call token (VNum (-1001)) (lit "I only work in group chats.")
       None None]
  /\
  run (handleUpdate (update_of "channel" "report") token) net_down
  = (Normal {| status := 200; body := lit "OK"; headers := [] |},
     {| calls := []; console := [] |}).
Proof.
  split.
  - apply (outside_groups net_down (update_of "private" "report") token
             (message_of "private" "report") (VNum (-1001))
             (VStr (lit "private")) (lit "report")).
    + repeat split. exists (chat_of "private"). repeat split.
    + discriminate.
    + reflexivity.
  - apply (outside_groups net_down (update_of "channel" "report") token
             (message_of "channel" "report") (VNum (-1001))
             (VStr (lit "channel")) (lit "report")).
    + repeat split. exists (chat_of "channel"). repeat split.
    + discriminate.
    + intros [E | E]; discriminate E.
    + discriminate.
Defined.

(** C6. When the search call of an update rejects or is answered with a
    status outside 2xx (or with a body that is not JSON), exactly one message
    is sent to the chat, with the text [Sorry, something went wrong while
    searching.]; the outbound calls are the search and that message, so no
    other reply text is sent. *)
Theorem search_failure_sends_apology
  (net : network) (update botToken message chatId : value)
  (query encoded : jsstring) :
  search_update update message chatId query ->
  encodeURIComponent query = Normal encoded ->
  search_fails (net O) ->
  calls (snd (run (handleUpdate update botToken) net))
  = [GET (search_url encoded);
     message_call botToken chatId
       (lit "Sorry, something went wrong while searching.") None None]
  /\
  messages (snd (run (handleUpdate update botToken) net))
  = [message_call botToken chatId
       (lit "Sorry, something went wrong while searching.") None None].
Proof.
  intros Hu Henc Hfail.
  destruct (run_search_fails net update botToken message chatId query encoded
              Hu Henc Hfail) as (e & ->).
  split; reflexivity.
Qed.

Lemma search_failure_sends_apology_witness :
  calls (snd (run (handleUpdate (update_of "group" "report") token)
                (net_search (answer 503 None))))
  = [GET (search_url (lit "report"));
     message_call token (VNum (-1001))
       (lit "Sorry, something went wrong while searching.") None None]
  /\
  messages (snd (run (handleUpdate (update_of "group" "report") token)
                   (net_search (answer 503 None))))
  = [message_call token (VNum (-1001))
       (lit "Sorry, something went wrong while searching.") None None].
Proof.
  apply (search_failure_sends_apology (net_search (answer 503 None))
           (update_of "group" "report") token (message_of "group" "report")
           (VNum (-1001)) (lit "report") (lit "report")).
  - exists (lit "report"), (VStr (lit "group")). repeat split.
    + exists (chat_of "group"). repeat split.
    + left. reflexivity.
    + discriminate.
  - reflexivity.
  - right. eexists. split; [reflexivity |]. left. reflexivity.
Defined.

Lemma reply_markup_one_button (url : jsstring) :
  one_button (reply_markup url) url.
Proof. exists button_label. reflexivity. Qed.

(** C5, as the code has it. When the search of an update succeeds with a
    non-empty [files] array and [total_files] can be printed (it is not an
    object with an own [toString] property, nor an array that holds one),
    exactly one message with the text
    [Found <total_files> result(s) for "<query>".] is sent.  It is the first
    message sent, it carries a keyboard of exactly one button, whose URL
    contains [q=<encoded query>&t=files], and it replies to the [message_id]
    of the original message when that is truthy; when the message has no
    [message_id], or the identifier 0, it is sent without
    [reply_to_message_id].  Nothing is sent after it when its delivery call
    resolves; when that call rejects, the one message that follows is the
    apology, whose text is another. *)
Theorem found_reply
  (net : network) (update botToken message chatId : value)
  (query encoded count : jsstring) (data f total mid : value)
  (fs : list value) :
  search_update update message chatId query ->
  encodeURIComponent query = Normal encoded ->
  search_returns (net O) data ->
  get data (lit "files") = Normal (VArr (f :: fs)) ->
  get data (lit "total_files") = Normal total ->
  ToString_value total = Normal count ->
  get message (lit "message_id") = Normal mid ->
  let url := lit "https://gods-eye.pages.dev/?q=" ++ encoded ++ lit "&t=files" in
  let text :=
    lit "Found " ++ count ++ lit " result(s) for " ++ dquote
    ++ query ++ dquote ++ lit "." in
  let apology := lit "Sorry, something went wrong while searching." in
  one_button (reply_markup url) url
  /\ includes url (lit "q=" ++ encoded ++ lit "&t=files") = true
  /\ messages (snd (run (handleUpdate update botToken) net))
     = message_call botToken chatId text (Some (reply_markup url))
         (if truthy mid then Some mid else None)
       :: match net 1%nat with
          | Responds _ => []
          | Rejects => [message_call botToken chatId apology None None]
          end
  /\ apology <> text.
Proof.
  intros Hu Henc Hret Hfiles Htotal Hcount Hmid url text apology.
  split; [apply reply_markup_one_button |].
  split; [apply button_url_query |].
  split.
  - rewrite (run_search_found net update botToken message chatId query encoded
               count data f total mid fs Hu Henc Hret Hfiles Htotal Hcount
               Hmid).
    rewrite run_reply.
    destruct (net 1%nat); reflexivity.
  - intros E. apply (f_equal (hd 0%N)) in E. discriminate E.
Qed.

Lemma found_reply_witness :
  let url := lit "https://gods-eye.pages.dev/?q=report&t=files" in
  let text :=
    lit "Found 3 result(s) for " ++ dquote ++ lit "report" ++ dquote
    ++ lit "." in
  let apology := lit "Sorry, something went wrong while searching." in
  one_button (reply_markup url) url
  /\ includes url (lit "q=report&t=files") = true
  /\ messages
       (snd (run (handleUpdate (update_of "group" "report") token)
               (net_search
                  (answer 200
                     (Some (search_data 3 [a_file; a_file; a_file]))))))
     = [message_call token (VNum (-1001)) text (Some (reply_markup url))
          (Some (VNum 7))]
  /\ apology <> text.
Proof.
  apply (found_reply
           (net_search
              (answer 200 (Some (search_data 3 [a_file; a_file; a_file]))))
           (update_of "group" "report") token (message_of "group" "report")
           (VNum (-1001)) (lit "report") (lit "report") (lit "3")
           (search_data 3 [a_file; a_file; a_file]) a_file (VNum 3) (VNum 7)
           [a_file; a_file]).
  - exists (lit "report"), (VStr (lit "group")). repeat split.
    + exists (chat_of "group"). repeat split.
    + left. reflexivity.
    + discriminate.
  - reflexivity.
  - eexists. repeat split.
  - reflexivity.
  - reflexivity.
  - reflexivity.
  - reflexivity.
Defined.

(** C5 as stated fails, in two ways.  The search answers 2xx with three
    files for [report] and every delivery resolves.  With a [total_files]
    that is an object with an own [toString] property the template of the
    reply throws, and the one message sent is the apology.  With the
    [message_id] 0 the [Found] reply is sent, but not as a reply: its body
    has no [reply_to_message_id]. *)
Lemma found_reply_needs_count_and_id :
  messages
    (snd (run (handleUpdate (update_of "group" "report") token)
            (net_search (answer 200 (Some odd_data)))))
  = [message_call token (VNum (-1001))
       (lit "Sorry, something went wrong while searching.") None None]
  /\
  messages
    (snd (run (handleUpdate update_with_id_0 token)
            (net_search
               (answer 200 (Some (search_data 3 [a_file; a_file; a_file]))))))
  = [message_call token (VNum (-1001))
       (lit "Found 3 result(s) for " ++ dquote ++ lit "report" ++ dquote
        ++ lit ".")
       (Some (reply_markup (lit "https://gods-eye.pages.dev/?q=report&t=files")))
       None].
Proof. split; vm_compute; reflexivity. Qed.

(** The same update when the delivery of the reply rejects: the reply is
    followed by the apology. *)
Lemma found_reply_then_apology :
  messages
    (snd (run (handleUpdate (update_of "group" "report") token)
            (net_search_then_down
               (answer 200 (Some (search_data 3 [a_file; a_file; a_file]))))))
  = [message_call token (VNum (-1001))
       (lit "Found 3 result(s) for " ++ dquote ++ lit "report" ++ dquote
        ++ lit ".")
       (Some (reply_markup (lit "https://gods-eye.pages.dev/?q=report&t=files")))
       (Some (VNum 7));
     message_call token (VNum (-1001))
       (lit "Sorry, something went wrong while searching.") None None].
Proof. vm_compute. reflexivity. Qed.

(** C10, as the code has it. After a successful search the reply is chosen
    by the [files] array alone.  When the document holds no non-empty array
    of files (it is [null] or another falsy value, or its [files] is
    missing, [null] or empty), the first message sent is the
    [No results found] reply, whatever [total_files] is.  With a non-empty
    [files] array the first message is the [Found] reply, and the count it
    reports is [total_files] as printed, whatever the length of [files];
    only when [total_files] cannot be printed (an object with an own
    [toString] property, or an array that holds one) is the first message
    the apology. *)
Theorem reply_chosen_by_files
  (net : network) (update botToken message chatId : value)
  (query encoded : jsstring) (data mid : value) :
  search_update update message chatId query ->
  encodeURIComponent query = Normal encoded ->
  search_returns (net O) data ->
  get message (lit "message_id") = Normal mid ->
  let first := hd_error (messages (snd (run (handleUpdate update botToken) net))) in
  (no_files data ->
   first
   = Some
       (message_call botToken chatId
          (lit "No results found for " ++ dquote ++ query ++ dquote
           ++ lit ". Please try a different search term.")
          None (if truthy mid then Some mid else None)))
  /\
  (forall f fs total,
     get data (lit "files") = Normal (VArr (f :: fs)) ->
     get data (lit "total_files") = Normal total ->
     first
     = Some
         match ToString_value total with
         | Normal count =>
             message_call botToken chatId
               (lit "Found " ++ count ++ lit " result(s) for " ++ dquote
                ++ query ++ dquote ++ lit ".")
               (Some (reply_markup (button_url encoded)))
               (if truthy mid then Some mid else None)
         | Throws _ =>
             message_call botToken chatId
               (lit "Sorry, something went wrong while searching.") None None
         end).
Proof.
  intros Hu Henc Hret Hmid first. subst first. split.
  - intros Hnone.
    rewrite (run_search_empty net update botToken message chatId query encoded
               data mid Hu Henc Hret (has_results_absent _ Hnone) Hmid).
    rewrite run_reply.
    destruct (net 1%nat); reflexivity.
  - intros f fs total Hfiles Htotal.
    destruct (ToString_value total) as [count | e] eqn:Hcount.
    + rewrite (run_search_found net update botToken message chatId query
                 encoded count data f total mid fs Hu Henc Hret Hfiles Htotal
                 Hcount Hmid).
      rewrite run_reply.
      destruct (net 1%nat); reflexivity.
    + rewrite (run_search_unprintable net update botToken message chatId query
                 encoded data f total fs e Hu Henc Hret Hfiles Htotal Hcount).
      reflexivity.
Qed.

Lemma reply_chosen_by_files_witness :
  hd_error
    (messages
       (snd (run (handleUpdate (update_of "group" "report") token)
               (net_search (answer 200 (Some (search_data 5 [])))))))
  = Some
      (message_call token (VNum (-1001))
         (lit "No results found for " ++ dquote ++ lit "report" ++ dquote
          ++ lit ". Please try a different search term.")
         None (Some (VNum 7)))
  /\
  hd_error
    (messages
       (snd (run (handleUpdate (update_of "group" "report") token)
               (net_search (answer 200 (Some VNull))))))
  = Some
      (message_call token (VNum (-1001))
         (lit "No results found for " ++ dquote ++ lit "report" ++ dquote
          ++ lit ". Please try a different search term.")
         None (Some (VNum 7)))
  /\
  hd_error
    (messages
       (snd (run (handleUpdate (update_of "group" "report") token)
               (net_search (answer 200 (Some (search_data 10 [a_file])))))))
  = Some
      (message_call token (VNum (-1001))
         (lit "Found 10 result(s) for " ++ dquote ++ lit "report" ++ dquote
          ++ lit ".")
         (Some (reply_markup
                  (lit "https://gods-eye.pages.dev/?q=report&t=files")))
         (Some (VNum 7))).
Proof.
  assert (Hu : search_update (update_of "group" "report")
                 (message_of "group" "report") (VNum (-1001)) (lit "report")).
  { exists (lit "report"), (VStr (lit "group")). repeat split.
    - exists (chat_of "group"). repeat split.
    - left. reflexivity.
    - discriminate. }
  split; [| split].
  - apply (proj1 (reply_chosen_by_files
                    (net_search (answer 200 (Some (search_data 5 []))))
                    (update_of "group" "report") token
                    (message_of "group" "report") (VNum (-1001))
                    (lit "report") (lit "report") (search_data 5 [])
                    (VNum 7) Hu eq_refl
                    (ex_intro _ _ (conj eq_refl (conj eq_refl eq_refl)))
                    eq_refl)).
    right. exists (VArr []). split; [reflexivity | right; reflexivity].
  - apply (proj1 (reply_chosen_by_files
                    (net_search (answer 200 (Some VNull)))
                    (update_of "group" "report") token
                    (message_of "group" "report") (VNum (-1001))
                    (lit "report") (lit "report") VNull
                    (VNum 7) Hu eq_refl
                    (ex_intro _ _ (conj eq_refl (conj eq_refl eq_refl)))
                    eq_refl)).
    left. reflexivity.
  - apply (proj2 (reply_chosen_by_files
                    (net_search (answer 200 (Some (search_data 10 [a_file]))))
                    (update_of "group" "report") token
                    (message_of "group" "report") (VNum (-1001))
                    (lit "report") (lit "report") (search_data 10 [a_file])
                    (VNum 7) Hu eq_refl
                    (ex_intro _ _ (conj eq_refl (conj eq_refl eq_refl)))
                    eq_refl)
             a_file [] (VNum 10)); reflexivity.
Defined.

(** C10 as stated fails: with one file and a [total_files] that is an
    object with an own [toString] property, the template of the [Found]
    reply throws; the first, and only, message is the apology and no count
    is reported. *)
Lemma unprintable_count_gets_apology :
  get (VObj [(lit "total_files", odd_count); (lit "files", VArr [a_file])])
    (lit "files") = Normal (VArr [a_file])
  /\
  messages
    (snd (run (handleUpdate (update_of "group" "report") token)
            (net_search
               (answer 200
                  (Some (VObj [(lit "total_files", odd_count);
                               (lit "files", VArr [a_file])]))))))
  = [message_call token (VNum (-1001))
       (lit "Sorry, something went wrong while searching.") None None].
Proof. split; vm_compute; reflexivity. Qed.

(* ================================================================== *)
(** ** Further properties of the worker *)
(* ================================================================== *)

(** *** Reading properties *)

Lemma get_throws (v : value) (k : jsstring) (e : error) :
  get v k = Throws e -> e = TypeError /\ nullish v.
Proof.
  unfold nullish.
  destruct v; simpl; try discriminate;
    try (destruct (jseq k (lit "length")); discriminate).
  - intros [= <-]. auto.
  - intros [= <-]. auto.
Qed.

Lemma get_defined (v : value) (k : jsstring) :
  ~ nullish v -> exists x, get v k = Normal x.
Proof.
  unfold nullish. destruct v; simpl; intros H; eauto.
  - exfalso. auto.
  - exfalso. auto.
  - destruct (jseq k (lit "length")); eauto.
  - destruct (jseq k (lit "length")); eauto.
Qed.

Lemma truthy_not_nullish (v : value) : truthy v = true -> ~ nullish v.
Proof. intros H [-> | ->]; discriminate H. Qed.

Lemma get_normal_not_nullish (v : value) (k : jsstring) (x : value) :
  get v k = Normal x -> ~ nullish v.
Proof. intros H [-> | ->]; discriminate H. Qed.

Lemma strict_eq_str_true (v : value) (s : jsstring) :
  strict_eq_str v s = true -> v = VStr s.
Proof.
  destruct v; simpl; try discriminate.
  unfold jseq. destruct (list_eq_dec N.eq_dec s0 s); congruence.
Qed.

Lemma jseq_false (a b : jsstring) : jseq a b = false -> a <> b.
Proof. intros H ->. rewrite jseq_refl in H. discriminate. Qed.

(** *** The handler of the guarded block, from any state *)

Lemma recover_at
  (botToken chatId : value) (e : error) (net : network) (st : state) :
  bind
    (console_error (lit "Error during search or send:") e ;;;
     sendMessage botToken chatId (VStr apology_text) VUndefined VUndefined)
    (fun _ => ret OK) net st
  = (delivered (net (List.length (calls st))),
     {| calls := calls st
                 ++ [message_call botToken chatId apology_text None None];
        console := console st ++ [(guard_label, e)] |}).
Proof.
  unfold bind at 1 2. unfold console_error.
  rewrite sendMessage_at, sendMessage_request_message.
  cbn [calls console]. unfold delivered.
  destruct (net (List.length (calls st))); reflexivity.
Qed.

Lemma ToString_value_throws (v : value) (e : error) :
  ToString_value v = Throws e -> e = TypeError.
Proof.
  unfold ToString_value. destruct (unprintable v); congruence.
Qed.

Lemma gt_zero_throws (v : value) (e : error) :
  gt_zero v = Throws e -> e = TypeError.
Proof.
  destruct v; simpl; try discriminate;
    match goal with
    | |- context [ToString_value ?x] =>
        destruct (ToString_value x) eqn:E; [discriminate |];
        intros [= <-]; apply (ToString_value_throws _ _ E)
    end.
Qed.

Lemma has_results_cases (data : value) :
  (has_results data = ret true /\ ~ nullish data)
  \/ has_results data = ret false
  \/ has_results data = throw TypeError.
Proof.
  unfold has_results.
  destruct (truthy data) eqn:Hd; [| now right; left].
  destruct (get_defined data (lit "files") (truthy_not_nullish _ Hd))
    as [files Hf].
  rewrite (bind_prop _ _ _ _ Hf).
  destruct (truthy files) eqn:Hfs; [| now right; left].
  destruct (get_defined files (lit "length") (truthy_not_nullish _ Hfs))
    as [len Hl].
  rewrite (bind_prop _ _ _ _ Hl).
  destruct (gt_zero len) as [[|] | e] eqn:Hgt.
  - left. split; [reflexivity | apply truthy_not_nullish, Hd].
  - right. left. reflexivity.
  - right. right. rewrite (gt_zero_throws _ _ Hgt). reflexivity.
Qed.

(** Once the search has answered, a reply is attempted (some text, with
    or without keyboard, in reply to whatever [message_id] reads), unless
    building it throws: then the handler of the guarded block runs. *)
Lemma run_search_answered
  (net : network) (update botToken message chatId : value)
  (query encoded : jsstring) (data mid : value) :
  search_update update message chatId query ->
  encodeURIComponent query = Normal encoded ->
  search_returns (net O) data ->
  get message (lit "message_id") = Normal mid ->
  (exists text mk,
     run (handleUpdate update botToken) net =
     bind
       (try_catch
          (sendMessage botToken chatId (VStr text) mk mid)
          (fun error =>
             console_error (lit "Error during search or send:") error ;;;
             sendMessage botToken chatId (VStr apology_text)
               VUndefined VUndefined))
       (fun _ => ret OK) net
       {| calls := [GET (search_url encoded)]; console := [] |})
  \/ run (handleUpdate update botToken) net =
     (delivered (net 1%nat),
      {| calls := [GET (search_url encoded);
                   message_call botToken chatId apology_text None None];
         console := [(guard_label, TypeError)] |}).
Proof.
  intros Hu Henc (r & Hnet & Hok & Hjson) Hmid.
  remember (run (handleUpdate update botToken) net) as result eqn:E.
  unfold run in E. rewrite (handleUpdate_search _ _ _ _ _ Hu) in E.
  unfold bind at 1 in E. unfold try_catch at 1 in E.
  unfold search_and_reply in E.
  rewrite Henc, !bind_lift, bind_fetch_initial, Hnet, Hok in E.
  cbn [negb] in E. unfold json in E. rewrite Hjson, bind_ret in E.
  destruct (has_results_cases data) as [[H Hd] | [H | H]]; rewrite H in E.
  - rewrite bind_ret in E.
    destruct (get_defined data (lit "total_files") Hd) as [total Htotal].
    rewrite (bind_prop _ _ _ _ Htotal) in E.
    destruct (ToString_value total) as [count | e] eqn:Hcount.
    + left. rewrite bind_lift in E. cbv zeta in E.
      rewrite bind_lift, (bind_prop _ _ _ _ Hmid) in E.
      exists (found_text count query), (reply_markup (button_url encoded)).
      exact E.
    + right. rewrite (ToString_value_throws _ _ Hcount) in E.
      rewrite E.
      apply (recover_at botToken chatId TypeError net
               {| calls := [GET (search_url encoded)]; console := [] |}).
  - left. rewrite bind_ret in E. cbv zeta in E.
    rewrite (bind_prop _ _ _ _ Hmid) in E.
    exists (no_results_text query), VNull.
    exact E.
  - right. rewrite E.
    apply (recover_at botToken chatId TypeError net
             {| calls := [GET (search_url encoded)]; console := [] |}).
Qed.

(** The guarded block when the query cannot be encoded: no search call,
    the handler runs at once. *)
Lemma run_unencodable
  (net : network) (update botToken message chatId : value)
  (query : jsstring) (e : error) :
  search_update update message chatId query ->
  encodeURIComponent query = Throws e ->
  run (handleUpdate update botToken) net =
  (delivered (net O),
   {| calls := [message_call botToken chatId apology_text None None];
      console := [(guard_label, e)] |}).
Proof.
  intros Hu Henc. unfold run.
  rewrite (handleUpdate_search _ _ _ _ _ Hu).
  unfold bind at 1. unfold try_catch, search_and_reply.
  rewrite Henc. unfold bind at 1. unfold lift.
  apply (recover_at botToken chatId e net initial).
Qed.

(** [handleUpdate] on an update whose fields cannot be read. *)
Lemma handleUpdate_no_chat_id
  (update botToken message text chat : value) :
  get update (lit "message") = Normal message ->
  get message (lit "text") = Normal text ->
  truthy text = true ->
  get message (lit "chat") = Normal chat ->
  nullish chat ->
  handleUpdate update botToken = throw TypeError.
Proof.
  intros Hm Ht Htt Hc Hn. unfold handleUpdate.
  assert (Htm : truthy message = true).
  { destruct message; try discriminate Hm; try reflexivity;
      simpl in Ht; try (destruct (jseq (lit "text") (lit "length")));
      inversion Ht; subst; discriminate Htt. }
  rewrite (bind_prop _ _ _ _ Hm), Htm. cbn [negb].
  rewrite (bind_prop _ _ _ _ Ht), Htt. cbn [negb].
  rewrite (bind_prop _ _ _ _ Hc).
  destruct Hn as [-> | ->]; reflexivity.
Qed.

Lemma handleUpdate_text_not_string
  (update botToken message text chat chatId chatType : value) :
  get update (lit "message") = Normal message ->
  get message (lit "text") = Normal text ->
  truthy text = true ->
  (forall s, text <> VStr s) ->
  get message (lit "chat") = Normal chat ->
  get chat (lit "id") = Normal chatId ->
  get chat (lit "type") = Normal chatType ->
  handleUpdate update botToken = throw TypeError.
Proof.
  intros Hm Ht Htt Hns Hc Hid Hty. unfold handleUpdate.
  assert (Htm : truthy message = true).
  { destruct message; try discriminate Hm; try reflexivity;
      simpl in Ht; try (destruct (jseq (lit "text") (lit "length")));
      inversion Ht; subst; discriminate Htt. }
  rewrite (bind_prop _ _ _ _ Hm), Htm. cbn [negb].
  rewrite (bind_prop _ _ _ _ Ht), Htt. cbn [negb].
  rewrite (bind_prop _ _ _ _ Hc), (bind_prop _ _ _ _ Hid),
    (bind_prop _ _ _ _ Hty).
  destruct text; try reflexivity.
  exfalso. apply (Hns s). reflexivity.
Qed.

Lemma notice_run (botToken chatId : value) (net : network) :
  bind (sendMessage botToken chatId (VStr notice_text) VUndefined VUndefined)
    (fun _ => ret OK) net initial
  = (delivered (net O),
     {| calls := [message_call botToken chatId notice_text None None];
        console := [] |}).
Proof.
  unfold bind. rewrite sendMessage_at.
  rewrite (sendMessage_request_message botToken chatId notice_text
             VUndefined VUndefined).
  unfold delivered. cbn [calls console initial List.length app].
  destruct (net O); reflexivity.
Qed.

(** Every invocation of [handleUpdate] ends in one of the seven ways. *)
Lemma handleUpdate_handled (update botToken : value) (net : network) :
  handled botToken net (run (handleUpdate update botToken) net).
Proof.
  destruct (get update (lit "message")) as [message | e] eqn:Hm.
  2:{ destruct (get_throws _ _ _ Hm) as [-> _].
      unfold run, handleUpdate, bind, prop, lift. rewrite Hm.
      apply handled_malformed. }
  destruct (truthy message) eqn:Htm.
  2:{ unfold run, handleUpdate. rewrite (bind_prop _ _ _ _ Hm), Htm.
      apply handled_ignored. }
  pose proof (truthy_not_nullish _ Htm) as Hnn.
  destruct (get_defined message (lit "text") Hnn) as [text Ht].
  destruct (truthy text) eqn:Htt.
  2:{ unfold run, handleUpdate. rewrite (bind_prop _ _ _ _ Hm), Htm.
      cbn [negb]. rewrite (bind_prop _ _ _ _ Ht), Htt.
      apply handled_ignored. }
  destruct (get_defined message (lit "chat") Hnn) as [chat Hc].
  destruct (get chat (lit "id")) as [chatId | e] eqn:Hid.
  2:{ destruct (get_throws _ _ _ Hid) as [_ Hn].
      unfold run.
      rewrite (handleUpdate_no_chat_id _ _ _ _ _ Hm Ht Htt Hc Hn).
      apply handled_malformed. }
  destruct (get_defined chat (lit "type") (get_normal_not_nullish _ _ _ Hid))
    as [chatType Hty].
  assert (Hstr : (exists s, text = VStr s) \/ forall s, text <> VStr s).
  { destruct text; try (right; intros s0; discriminate). left. eauto. }
  destruct Hstr as [[s ->] | Hns].
  2:{ unfold run.
      rewrite (handleUpdate_text_not_string _ _ _ _ _ _ _
                 Hm Ht Htt Hns Hc Hid Hty).
      apply handled_malformed. }
  assert (Hu : text_update update message s chatId chatType).
  { split; [exact Hm |]. split; [exact Ht |]. exists chat. auto. }
  assert (Hne : s <> []) by (intros ->; discriminate Htt).
  unfold run. rewrite (handleUpdate_text _ _ _ _ _ _ Hu Hne).
  destruct (strict_eq_str chatType (lit "group")) eqn:Hg;
    [| destruct (strict_eq_str chatType (lit "supergroup")) eqn:Hsg].
  3:{ cbn [negb andb].
      destruct (strict_eq_str chatType (lit "private")).
      - rewrite notice_run. apply handled_notice.
      - apply handled_ignored. }
  all: cbn [negb andb].
  all: assert (His : is_group chatType)
         by (first [ left; apply strict_eq_str_true; assumption
                   | right; apply strict_eq_str_true; assumption ]).
  all: destruct (startsWith (trim s) (lit "/")) eqn:Hsl;
         [ apply handled_ignored |].
  all: destruct (jseq (trim s) []) eqn:Hje; [ apply handled_ignored |].
  all: cbn [orb].
  all: assert (Hsu : search_update update message chatId (trim s))
         by (exists s, chatType; repeat split;
             [ exact Hm | exact Ht | exists chat; auto | exact His
             | apply jseq_false, Hje | exact Hsl ]).
  all: rewrite <- (handleUpdate_search _ botToken _ _ _ Hsu).
  all: change (handleUpdate update botToken net initial)
         with (run (handleUpdate update botToken) net).
  all: destruct (encodeURIComponent (trim s)) as [encoded | e] eqn:Henc;
         [| rewrite (run_unencodable net _ botToken _ _ _ e Hsu Henc);
            apply (handled_unencodable botToken net chatId (trim s) e Henc) ].
  all: assert (Hq : searched (trim s) encoded)
         by (repeat split; [ exact Henc | apply jseq_false, Hje | exact Hsl ]).
  all: assert (Hcases : search_fails (net O)
                        \/ exists data, search_returns (net O) data).
  1,3: destruct (net O) as [| r] eqn:Hn0;
         [ left; left; reflexivity
         | destruct (res_ok r) eqn:Hok;
           [ destruct (res_json r) as [data |] eqn:Hj;
             [ right; exists data, r; auto
             | left; right; exists r; auto ]
           | left; right; exists r; auto ] ].
  all: destruct Hcases as [Hfail | [data Hret]].
  1,3: destruct (run_search_fails net update botToken message chatId (trim s)
                   encoded Hsu Henc Hfail) as (e & ->);
       apply (handled_search_failed botToken net chatId (trim s) encoded e
                Hq Hfail).
  all: destruct (get_defined message (lit "message_id") Hnn) as [mid Hmid].
  all: destruct (run_search_answered net update botToken message chatId
                   (trim s) encoded data mid Hsu Henc Hret Hmid)
         as [(text & mk & ->) | ->];
       [ rewrite run_reply;
         destruct (net 1%nat) as [| r1] eqn:Hn1;
         [ apply (handled_reply_failed botToken net chatId (trim s) encoded
                    text (supplied mk) (supplied mid) data Hq Hret Hn1)
         | apply (handled_replied botToken net chatId (trim s) encoded text
                    (supplied mk) (supplied mid) data r1 Hq Hret Hn1) ]
       | apply (handled_no_reply botToken net chatId (trim s) encoded data
                  Hq Hret) ].
Qed.

(* ------------------------------------------------------------------ *)
(** *** [handleUpdate] on every update *)

(** X1. An update without a message, or whose message has no text (or an
    empty one), is acknowledged with 200 [OK]; no outbound call is made
    and nothing is logged. *)
Theorem no_text_is_acknowledged
  (net : network) (update botToken message : value) :
  get update (lit "message") = Normal message ->
  truthy message = false
  \/ (exists text, get message (lit "text") = Normal text
                   /\ truthy text = false) ->
  run (handleUpdate update botToken) net
  = (Normal {| status := 200; body := lit "OK"; headers := [] |},
     {| calls := []; console := [] |}).
Proof.
  intros Hm H. unfold run, handleUpdate.
  rewrite (bind_prop _ _ _ _ Hm).
  destruct (truthy message) eqn:Htm; [| reflexivity].
  destruct H as [H | (text & Ht & Htt)]; [discriminate H |].
  cbn [negb]. rewrite (bind_prop _ _ _ _ Ht), Htt. reflexivity.
Qed.

Lemma no_text_is_acknowledged_witness :
  run (handleUpdate
         (VObj [(lit "update_id", VNum 2);
                (lit "message",
                 VObj [(lit "message_id", VNum 8);
                       (lit "chat", chat_of "group");
                       (lit "photo", VArr [a_file])])])
         token) net_down
  = (Normal {| status := 200; body := lit "OK"; headers := [] |},
     {| calls := []; console := [] |})
  /\
  run (handleUpdate
         (VObj [(lit "update_id", VNum 3);
                (lit "edited_message", message_of "group" "report")])
         token) net_down
  = (Normal {| status := 200; body := lit "OK"; headers := [] |},
     {| calls := []; console := [] |}).
Proof.
  split.
  - apply (no_text_is_acknowledged net_down _ token
             (VObj [(lit "message_id", VNum 8);
                    (lit "chat", chat_of "group");
                    (lit "photo", VArr [a_file])])).
    + reflexivity.
    + right. exists VUndefined. split; reflexivity.
  - apply (no_text_is_acknowledged net_down _ token VUndefined).
    + reflexivity.
    + left. reflexivity.
Defined.

(** X3. Whatever the update and the network, the outbound calls of
    [handleUpdate] are none, one message, a search and a message, or a
    search, a message and the apology.  So there is at most one search, for
    a query that is neither empty nor a command, every search is followed by
    a message, and all messages are messages of this bot to one chat. *)
Theorem outbound_calls_shape (update botToken : value) (net : network) :
  trace_shape botToken (calls (snd (run (handleUpdate update botToken) net))).
Proof.
  destruct (handleUpdate_handled update botToken net); cbn [snd calls initial].
  - left. reflexivity.
  - left. reflexivity.
  - right. exists chatId. left. eexists. split; [reflexivity |].
    repeat eexists.
  - right. exists chatId. left. eexists. split; [reflexivity |].
    repeat eexists.
  - right. exists chatId. right. left. do 2 eexists.
    split; [reflexivity |]. split.
    + exists query, encoded. auto.
    + repeat eexists.
  - right. exists chatId. right. left. do 2 eexists.
    split; [reflexivity |]. split.
    + exists query, encoded. auto.
    + repeat eexists.
  - right. exists chatId. right. left. do 2 eexists.
    split; [reflexivity |]. split.
    + exists query, encoded. auto.
    + repeat eexists.
  - right. exists chatId. right. right. do 2 eexists.
    split; [reflexivity |]. split.
    + exists query, encoded. auto.
    + repeat eexists.
Qed.

(** X4. [handleUpdate] returns nothing but the 200 [OK] response.  It
    throws in two ways only: a [TypeError], before any outbound call and
    with nothing logged, or the network error of its last outbound call, a
    message whose delivery rejected. *)
Theorem handleUpdate_completion (update botToken : value) (net : network) :
  let result := run (handleUpdate update botToken) net in
  fst result = Normal {| status := 200; body := lit "OK"; headers := [] |}
  \/ (fst result = Throws TypeError /\ snd result = initial)
  \/ (fst result = Throws NetworkError
      /\ exists before m,
           calls (snd result) = before ++ [m]
           /\ is_message m = true
           /\ net (List.length before) = Rejects).
Proof.
  cbv zeta.
  destruct (handleUpdate_handled update botToken net); cbn [fst snd calls].
  - right. left. split; reflexivity.
  - left. reflexivity.
  - unfold delivered. destruct (net O) eqn:Hn; [| left; reflexivity].
    right. right. split; [reflexivity |].
    exists [], (message_call botToken chatId notice_text None None).
    repeat split. exact Hn.
  - unfold delivered. destruct (net O) eqn:Hn; [| left; reflexivity].
    right. right. split; [reflexivity |].
    exists [], (message_call botToken chatId apology_text None None).
    repeat split. exact Hn.
  - unfold delivered. destruct (net 1%nat) eqn:Hn; [| left; reflexivity].
    right. right. split; [reflexivity |].
    exists [GET (search_url encoded)],
      (message_call botToken chatId apology_text None None).
    repeat split. exact Hn.
  - unfold delivered. destruct (net 1%nat) eqn:Hn; [| left; reflexivity].
    right. right. split; [reflexivity |].
    exists [GET (search_url encoded)],
      (message_call botToken chatId apology_text None None).
    repeat split. exact Hn.
  - left. reflexivity.
  - unfold delivered. destruct (net 2%nat) eqn:Hn; [| left; reflexivity].
    right. right. split; [reflexivity |].
    exists [GET (search_url encoded);
            message_call botToken chatId text markup replyTo],
      (message_call botToken chatId apology_text None None).
    repeat split. exact Hn.
Qed.

Lemma misshapen_throws (update botToken : value) :
  misshapen update -> handleUpdate update botToken = throw TypeError.
Proof.
  intros [-> | (message & text & Hm & Ht & Htt & H)]; [reflexivity |].
  pose proof (get_normal_not_nullish _ _ _ Ht) as Hnn.
  destruct H as [(chat & Hc & Hn) | Hns].
  - apply (handleUpdate_no_chat_id _ _ _ _ _ Hm Ht Htt Hc Hn).
  - destruct (get_defined message (lit "chat") Hnn) as [chat Hc].
    destruct (get chat (lit "id")) as [chatId | e] eqn:Hid.
    + destruct (get_defined chat (lit "type")
                  (get_normal_not_nullish _ _ _ Hid)) as [chatType Hty].
      apply (handleUpdate_text_not_string _ _ _ _ _ _ _
               Hm Ht Htt Hns Hc Hid Hty).
    + destruct (get_throws _ _ _ Hid) as [_ Hn].
      apply (handleUpdate_no_chat_id _ _ _ _ _ Hm Ht Htt Hc Hn).
Qed.

Lemma fetch_update_route (request : Request) (env : Env) :
  truthy (BOT_TOKEN env) = true ->
  pathname request <> lit "/setwebhook" ->
  method request = lit "POST" ->
  Worker.fetch request env =
  try_catch
    (update <- request_json request ;; handleUpdate update (BOT_TOKEN env))
    (fun e =>
       console_error (lit "Error parsing update:") e ;;;
       ret (new_Response_status (lit "Invalid request body") 400)).
Proof.
  intros Htok Hpath Hmethod. unfold Worker.fetch.
  rewrite Htok, (jseq_neq _ _ Hpath), Hmethod, jseq_refl. reflexivity.
Qed.

(** X2. On the update route, a JSON body that is [null], or whose message
    has a truthy text but no chat, or a text that is not a string, makes
    [handleUpdate] throw a [TypeError] before any outbound call; the handler
    answers 400 [Invalid request body] and logs the error. *)
Theorem misshapen_update_is_400
  (net : network) (request : Request) (env : Env) (update : value) :
  truthy (BOT_TOKEN env) = true ->
  pathname request <> lit "/setwebhook" ->
  method request = lit "POST" ->
  body_json request = Some update ->
  misshapen update ->
  run (handleUpdate update (BOT_TOKEN env)) net = (Throws TypeError, initial)
  /\ run (Worker.fetch request env) net
     = (Normal {| status := 400; body := lit "Invalid request body";
                  headers := [] |},
        {| calls := [];
           console := [(lit "Error parsing update:", TypeError)] |}).
Proof.
  intros Htok Hpath Hmethod Hbody Hbad.
  pose proof (misshapen_throws update (BOT_TOKEN env) Hbad) as Hthrow.
  split.
  - unfold run. rewrite Hthrow. reflexivity.
  - unfold run. rewrite (fetch_update_route _ _ Htok Hpath Hmethod).
    unfold try_catch, bind, request_json. rewrite Hbody.
    unfold ret at 1. rewrite Hthrow. reflexivity.
Qed.

Lemma misshapen_update_is_400_witness :
  run (Worker.fetch
         (post (Some (VObj [(lit "message",
                             VObj [(lit "text", VStr (lit "report"))])])))
         env_ok) net_down
  = (Normal {| status := 400; body := lit "Invalid request body";
               headers := [] |},
     {| calls := [];
        console := [(lit "Error parsing update:", TypeError)] |})
  /\
  run (Worker.fetch
         (post (Some (VObj [(lit "message",
                             VObj [(lit "chat", chat_of "group");
                                   (lit "text", VNum 42)])])))
         env_ok) net_down
  = (Normal {| status := 400; body := lit "Invalid request body";
               headers := [] |},
     {| calls := [];
        console := [(lit "Error parsing update:", TypeError)] |}).
Proof.
  split.
  - apply (misshapen_update_is_400 net_down
             (post (Some (VObj [(lit "message",
                                 VObj [(lit "text", VStr (lit "report"))])])))
             env_ok
             (VObj [(lit "message",
                     VObj [(lit "text", VStr (lit "report"))])])).
    + reflexivity.
    + discriminate.
    + reflexivity.
    + reflexivity.
    + right.
      exists (VObj [(lit "text", VStr (lit "report"))]), (VStr (lit "report")).
      repeat split. left. exists VUndefined. split; [reflexivity |].
      left. reflexivity.
  - apply (misshapen_update_is_400 net_down
             (post (Some (VObj [(lit "message",
                                 VObj [(lit "chat", chat_of "group");
                                       (lit "text", VNum 42)])])))
             env_ok
             (VObj [(lit "message",
                     VObj [(lit "chat", chat_of "group");
                           (lit "text", VNum 42)])])).
    + reflexivity.
    + discriminate.
    + reflexivity.
    + reflexivity.
    + right.
      exists (VObj [(lit "chat", chat_of "group"); (lit "text", VNum 42)]),
        (VNum 42).
      repeat split. right. intros s. discriminate.
Defined.

Lemma handleUpdate_returns_OK (update botToken : value) (net : network)
  (r : Response) (st : state) :
  run (handleUpdate update botToken) net = (Normal r, st) -> r = OK.
Proof.
  destruct (handleUpdate_handled update botToken net) as
    [ | | c | c q e _ | c q enc e _ _ | c q enc d _ _
    | c q enc t mk rt d a _ _ _ | c q enc t mk rt d _ _ _ ];
    unfold delivered; intros E.
  - discriminate E.
  - congruence.
  - destruct (net O); congruence.
  - destruct (net O); congruence.
  - destruct (net 1%nat); congruence.
  - destruct (net 1%nat); congruence.
  - congruence.
  - destruct (net 2%nat); congruence.
Qed.

(** X5. On the update route (credential set, POST, a path other than
    [/setwebhook]) the handler never throws: whatever the body and the
    network, it answers 200 [OK] or 400 [Invalid request body]. *)
Theorem update_route_always_answers
  (net : network) (request : Request) (env : Env) :
  truthy (BOT_TOKEN env) = true ->
  pathname request <> lit "/setwebhook" ->
  method request = lit "POST" ->
  exists response st,
    run (Worker.fetch request env) net = (Normal response, st)
    /\ (response = {| status := 200; body := lit "OK"; headers := [] |}
        \/ response = {| status := 400; body := lit "Invalid request body";
                         headers := [] |}).
Proof.
  intros Htok Hpath Hmethod.
  unfold run. rewrite (fetch_update_route _ _ Htok Hpath Hmethod).
  unfold try_catch, bind, request_json.
  destruct (body_json request) as [update |].
  - unfold ret at 1.
    pose proof (handleUpdate_returns_OK update (BOT_TOKEN env) net) as H.
    unfold run in H.
    destruct (handleUpdate update (BOT_TOKEN env) net initial) as [c st].
    destruct c as [r | e].
    + exists r, st. split; [reflexivity |].
      left. apply (H r st). reflexivity.
    + eexists _, _. split; [reflexivity |]. right. reflexivity.
  - eexists _, _. split; [reflexivity |]. right. reflexivity.
Qed.

Lemma update_route_always_answers_witness :
  exists response st,
    run (Worker.fetch (post (Some (update_of "private" "hello"))) env_ok)
      net_down = (Normal response, st)
    /\ (response = {| status := 200; body := lit "OK"; headers := [] |}
        \/ response = {| status := 400; body := lit "Invalid request body";
                         headers := [] |}).
Proof.
  apply (update_route_always_answers net_down
           (post (Some (update_of "private" "hello"))) env_ok).
  - reflexivity.
  - discriminate.
  - reflexivity.
Defined.

(** X6. With the credential set, a request that is neither for
    [/setwebhook] nor a POST is answered 200 with the greeting; no outbound
    call is made, whatever its body. *)
Theorem other_requests_get_greeting
  (net : network) (request : Request) (env : Env) :
  truthy (BOT_TOKEN env) = true ->
  pathname request <> lit "/setwebhook" ->
  method request <> lit "POST" ->
  run (Worker.fetch request env) net
  = (Normal {| status := 200; body := hello_text; headers := [] |},
     {| calls := []; console := [] |}).
Proof.
  intros Htok Hpath Hmethod. unfold run, Worker.fetch.
  rewrite Htok, (jseq_neq _ _ Hpath), (jseq_neq _ _ Hmethod). reflexivity.
Qed.

Lemma other_requests_get_greeting_witness :
  run (Worker.fetch
         {| pathname := lit "/health"; method := lit "GET";
            body_json := Some (update_of "group" "report") |} env_ok) net_down
  = (Normal {| status := 200; body := hello_text; headers := [] |},
     {| calls := []; console := [] |}).
Proof.
  apply (other_requests_get_greeting net_down
           {| pathname := lit "/health"; method := lit "GET";
              body_json := Some (update_of "group" "report") |} env_ok);
    [reflexivity | discriminate | discriminate].
Defined.

(** X7. A query that [encodeURIComponent] rejects (a surrogate without
    its pair) is not searched for: the guarded block throws before the
    search call, the only outbound call is the apology, and the error is
    logged.  The update is acknowledged when the apology is delivered. *)
Theorem unencodable_query_gets_apology
  (net : network) (update botToken message chatId : value)
  (query : jsstring) (e : error) :
  search_update update message chatId query ->
  encodeURIComponent query = Throws e ->
  run (handleUpdate update botToken) net =
  (match net O with
   | Rejects => Throws NetworkError
   | Responds _ =>
       Normal {| status := 200; body := lit "OK"; headers := [] |}
   end,
   {| calls := [message_call botToken chatId
                  (lit "Sorry, something went wrong while searching.")
                  None None];
      console := [(lit "Error during search or send:", e)] |}).
Proof.
  intros Hu Henc.
  rewrite (run_unencodable net update botToken message chatId query e Hu Henc).
  unfold delivered. destruct (net O); reflexivity.
Qed.

Lemma unencodable_query_gets_apology_witness :
  run (handleUpdate
         (VObj [(lit "message",
                 VObj [(lit "message_id", VNum 7);
                       (lit "chat", chat_of "group");
                       (lit "text", VStr (lit "report " ++ [0xD83D]%N))])])
         token) (net_search telegram_ok) =
  (Normal {| status := 200; body := lit "OK"; headers := [] |},
   {| calls := [message_call token (VNum (-1001))
                  (lit "Sorry, something went wrong while searching.")
                  None None];
      console := [(lit "Error during search or send:", URIError)] |}).
Proof.
  apply (unencodable_query_gets_apology (net_search telegram_ok) _ token
           (VObj [(lit "message_id", VNum 7);
                  (lit "chat", chat_of "group");
                  (lit "text", VStr (lit "report " ++ [0xD83D]%N))])
           (VNum (-1001)) (lit "report " ++ [0xD83D]%N) URIError).
  - exists (lit "report " ++ [0xD83D]%N), (VStr (lit "group")). repeat split.
    + exists (chat_of "group"). repeat split.
    + left. reflexivity.
    + discriminate.
  - reflexivity.
Defined.

(** X8. Once the search has answered 2xx with JSON and the reply is
    built (the [No results found] reply when there is no non-empty array of
    files, the [Found] reply when there is one and the count prints), the
    reply counts as sent when its delivery call resolves, whatever status
    the chat platform answers with: the update is acknowledged with 200
    [OK] after exactly two outbound calls, the search and that reply; no
    apology is sent and nothing is logged. *)
Theorem platform_status_is_not_read
  (net : network) (update botToken message chatId : value)
  (query encoded : jsstring) (data mid : value) (r : http_response) :
  search_update update message chatId query ->
  encodeURIComponent query = Normal encoded ->
  search_returns (net O) data ->
  get message (lit "message_id") = Normal mid ->
  net 1%nat = Responds r ->
  (no_files data ->
   run (handleUpdate update botToken) net
   = (Normal {| status := 200; body := lit "OK"; headers := [] |},
      {| calls := [GET (search_url encoded);
                   message_call botToken chatId
                     (lit "No results found for " ++ dquote ++ query ++ dquote
                      ++ lit ". Please try a different search term.")
                     None (if truthy mid then Some mid else None)];
         console := [] |}))
  /\
  (forall f fs total count,
     get data (lit "files") = Normal (VArr (f :: fs)) ->
     get data (lit "total_files") = Normal total ->
     ToString_value total = Normal count ->
     run (handleUpdate update botToken) net
     = (Normal {| status := 200; body := lit "OK"; headers := [] |},
        {| calls := [GET (search_url encoded);
                     message_call botToken chatId
                       (lit "Found " ++ count ++ lit " result(s) for " ++ dquote
                        ++ query ++ dquote ++ lit ".")
                       (Some (reply_markup (button_url encoded)))
                       (if truthy mid then Some mid else None)];
           console := [] |})).
Proof.
  intros Hu Henc Hret Hmid Hn1. split.
  - intros Hnone.
    rewrite (run_search_empty net update botToken message chatId query encoded
               data mid Hu Henc Hret (has_results_absent _ Hnone) Hmid).
    rewrite run_reply, Hn1. reflexivity.
  - intros f fs total count Hfiles Htotal Hcount.
    rewrite (run_search_found net update botToken message chatId query encoded
               count data f total mid fs Hu Henc Hret Hfiles Htotal Hcount
               Hmid).
    rewrite run_reply, Hn1. reflexivity.
Qed.

Lemma platform_status_is_not_read_witness :
  run (handleUpdate (update_of "group" "report") token)
    (fun n => match n with
              | O => answer 200 (Some (search_data 3 [a_file]))
              | _ => answer 403 None
              end)
  = (Normal {| status := 200; body := lit "OK"; headers := [] |},
     {| calls := [GET (search_url (lit "report"));
                  message_call token (VNum (-1001))
                    (lit "Found 3 result(s) for " ++ dquote ++ lit "report"
                     ++ dquote ++ lit ".")
                    (Some (reply_markup (button_url (lit "report"))))
                    (Some (VNum 7))];
        console := [] |})
  /\
  run (handleUpdate (update_of "group" "report") token)
    (fun n => match n with
              | O => answer 200 (Some (VObj [(lit "files", VNull)]))
              | _ => answer 403 None
              end)
  = (Normal {| status := 200; body := lit "OK"; headers := [] |},
     {| calls := [GET (search_url (lit "report"));
                  message_call token (VNum (-1001))
                    (lit "No results found for " ++ dquote ++ lit "report"
                     ++ dquote ++ lit ". Please try a different search term.")
                    None (Some (VNum 7))];
        console := [] |}).
Proof.
  assert (Hu : search_update (update_of "group" "report")
                 (message_of "group" "report") (VNum (-1001)) (lit "report")).
  { exists (lit "report"), (VStr (lit "group")). repeat split.
    - exists (chat_of "group"). repeat split.
    - left. reflexivity.
    - discriminate. }
  split.
  - apply (proj2 (platform_status_is_not_read
                    (fun n => match n with
                              | O => answer 200 (Some (search_data 3 [a_file]))
                              | _ => answer 403 None
                              end)
                    (update_of "group" "report") token
                    (message_of "group" "report") (VNum (-1001))
                    (lit "report") (lit "report") (search_data 3 [a_file])
                    (VNum 7) {| res_status := 403; res_json := None |}
                    Hu eq_refl
                    (ex_intro _ _ (conj eq_refl (conj eq_refl eq_refl)))
                    eq_refl eq_refl)
             a_file [] (VNum 3) (lit "3")); reflexivity.
  - apply (proj1 (platform_status_is_not_read
                    (fun n => match n with
                              | O => answer 200
                                       (Some (VObj [(lit "files", VNull)]))
                              | _ => answer 403 None
                              end)
                    (update_of "group" "report") token
                    (message_of "group" "report") (VNum (-1001))
                    (lit "report") (lit "report")
                    (VObj [(lit "files", VNull)])
                    (VNum 7) {| res_status := 403; res_json := None |}
                    Hu eq_refl
                    (ex_intro _ _ (conj eq_refl (conj eq_refl eq_refl)))
                    eq_refl eq_refl)).
    right. exists VNull. split; [reflexivity | left; reflexivity].
Defined.

(* ------------------------------------------------------------------ *)
(** *** The webhook registration *)

Lemma fetch_setup_route (request : Request) (env : Env) :
  truthy (BOT_TOKEN env) = true ->
  pathname request = lit "/setwebhook" ->
  Worker.fetch request env = setWebhook (BOT_TOKEN env) env.
Proof.
  intros Htok Hpath. unfold Worker.fetch.
  rewrite Htok, Hpath, jseq_refl. reflexivity.
Qed.

(** X9. On [/setwebhook], whatever the method and the body of the request,
    with both secrets set the handler makes exactly one outbound call, the
    [setWebhook] registration of the encoded [WORKER_URL] with
    [drop_pending_updates=true].  The answer is decided by the field [ok]
    of the JSON the platform returns, not by its HTTP status: 200 with the
    target URL when [ok] is truthy, 500 otherwise, in both cases with the
    platform's JSON pretty-printed in the body. *)
Theorem registration_reports_platform_answer
  (net : network) (request : Request) (env : Env)
  (encoded : jsstring) (r : http_response) (result ok : value) :
  truthy (BOT_TOKEN env) = true ->
  pathname request = lit "/setwebhook" ->
  truthy (WORKER_URL env) = true ->
  encodeURIComponent (ToString (WORKER_URL env)) = Normal encoded ->
  net O = Responds r ->
  res_json r = Some result ->
  get result (lit "ok") = Normal ok ->
  run (Worker.fetch request env) net =
  (Normal
     (if truthy ok then
        {| status := 200;
           body := lit "Webhook set successfully to "
                   ++ ToString (WORKER_URL env) ++ newline ++ lit "<pre>"
                   ++ ToString (JSON_stringify_pretty result) ++ lit "</pre>";
           headers := [(lit "Content-Type", lit "text/html")] |}
      else
        {| status := 500;
           body := lit "Failed to set webhook." ++ newline ++ lit "<pre>"
                   ++ ToString (JSON_stringify_pretty result) ++ lit "</pre>";
           headers := [(lit "Content-Type", lit "text/html")] |}),
   {| calls := [GET (lit "https://api.telegram.org/bot"
                     ++ ToString (BOT_TOKEN env) ++ lit "/setWebhook?url="
                     ++ encoded ++ lit "&drop_pending_updates=true")];
      console := [] |}).
Proof.
  intros Htok Hpath Hurl Henc Hnet Hjson Hok. unfold run.
  rewrite (fetch_setup_route _ _ Htok Hpath). unfold setWebhook.
  rewrite Hurl. cbn [negb].
  rewrite Henc, bind_lift, bind_fetch_initial, Hnet.
  unfold json. rewrite Hjson, bind_ret, (bind_prop _ _ _ _ Hok).
  destruct (truthy ok); reflexivity.
Qed.

Lemma registration_reports_platform_answer_witness :
  run (Worker.fetch
         {| pathname := lit "/setwebhook"; method := lit "POST";
            body_json := Some (update_of "group" "report") |} env_ok)
    (fun _ => answer 401 (Some (VObj [(lit "ok", VBool false);
                                      (lit "error_code", VNum 401)])))
  = (Normal
       {| status := 500;
          body := lit "Failed to set webhook." ++ newline ++ lit "<pre>"
                  ++ ToString
                       (JSON_stringify_pretty
                          (VObj [(lit "ok", VBool false);
                                 (lit "error_code", VNum 401)]))
                  ++ lit "</pre>";
          headers := [(lit "Content-Type", lit "text/html")] |},
     {| calls := [GET (lit "https://api.telegram.org/bot123:ABC/setWebhook?url=https%3A%2F%2Fbot.example.workers.dev&drop_pending_updates=true")];
        console := [] |})
  /\
  run (Worker.fetch
         {| pathname := lit "/setwebhook"; method := lit "GET";
            body_json := None |} env_ok)
    (fun _ => answer 500 (Some (VObj [(lit "ok", VBool true)])))
  = (Normal
       {| status := 200;
          body := lit "Webhook set successfully to https://bot.example.workers.dev"
                  ++ newline ++ lit "<pre>"
                  ++ ToString
                       (JSON_stringify_pretty (VObj [(lit "ok", VBool true)]))
                  ++ lit "</pre>";
          headers := [(lit "Content-Type", lit "text/html")] |},
     {| calls := [GET (lit "https://api.telegram.org/bot123:ABC/setWebhook?url=https%3A%2F%2Fbot.example.workers.dev&drop_pending_updates=true")];
        console := [] |}).
Proof.
  split.
  - apply (registration_reports_platform_answer
             (fun _ => answer 401 (Some (VObj [(lit "ok", VBool false);
                                               (lit "error_code", VNum 401)])))
             {| pathname := lit "/setwebhook"; method := lit "POST";
                body_json := Some (update_of "group" "report") |} env_ok
             (lit "https%3A%2F%2Fbot.example.workers.dev")
             {| res_status := 401;
                res_json := Some (VObj [(lit "ok", VBool false);
                                        (lit "error_code", VNum 401)]) |}
             (VObj [(lit "ok", VBool false); (lit "error_code", VNum 401)])
             (VBool false)); reflexivity.
  - apply (registration_reports_platform_answer
               (fun _ => answer 500 (Some (VObj [(lit "ok", VBool true)])))
               {| pathname := lit "/setwebhook"; method := lit "GET";
                  body_json := None |} env_ok
               (lit "https%3A%2F%2Fbot.example.workers.dev")
               {| res_status := 500;
                  res_json := Some (VObj [(lit "ok", VBool true)]) |}
               (VObj [(lit "ok", VBool true)]) (VBool true));
      reflexivity.
Defined.

(** X10. On [/setwebhook] nothing is caught: when the registration call
    rejects, or its answer is not JSON, or is the JSON [null], the handler
    throws after that one call instead of answering. *)
Theorem registration_failure_escapes
  (net : network) (request : Request) (env : Env) (encoded : jsstring) :
  truthy (BOT_TOKEN env) = true ->
  pathname request = lit "/setwebhook" ->
  truthy (WORKER_URL env) = true ->
  encodeURIComponent (ToString (WORKER_URL env)) = Normal encoded ->
  net O = Rejects
  \/ (exists r, net O = Responds r
                /\ (res_json r = None \/ res_json r = Some VNull)) ->
  exists e,
    run (Worker.fetch request env) net =
    (Throws e,
     {| calls := [GET (setWebhook_url (BOT_TOKEN env) encoded)];
        console := [] |}).
Proof.
  intros Htok Hpath Hurl Henc Hfail. unfold run.
  rewrite (fetch_setup_route _ _ Htok Hpath). unfold setWebhook.
  rewrite Hurl. cbn [negb].
  rewrite Henc, bind_lift, bind_fetch_initial.
  destruct Hfail as [-> | (r & -> & [Hj | Hj])].
  - exists NetworkError. reflexivity.
  - exists SyntaxError. unfold json. rewrite Hj. reflexivity.
  - exists TypeError. unfold json. rewrite Hj. reflexivity.
Qed.

Lemma registration_failure_escapes_witness :
  exists e,
    run (Worker.fetch
           {| pathname := lit "/setwebhook"; method := lit "GET";
              body_json := None |} env_ok) net_down =
    (Throws e,
     {| calls := [GET (setWebhook_url token
                         (lit "https%3A%2F%2Fbot.example.workers.dev"))];
        console := [] |}).
Proof.
  apply (registration_failure_escapes net_down
           {| pathname := lit "/setwebhook"; method := lit "GET";
              body_json := None |} env_ok
           (lit "https%3A%2F%2Fbot.example.workers.dev")).
  - reflexivity.
  - reflexivity.
  - reflexivity.
  - reflexivity.
  - left. reflexivity.
Defined.

(** X11. A secret set to the empty string counts as not set: an empty
    [BOT_TOKEN] is answered 500 on every route, and on [/setwebhook] an
    empty [WORKER_URL] is answered 500, both before any outbound call. *)
Theorem empty_secret_is_not_set
  (net : network) (request : Request) (env : Env) :
  (BOT_TOKEN env = VStr [] ->
   run (Worker.fetch request env) net
   = (Normal {| status := 500; body := lit "BOT_TOKEN secret is not set";
                headers := [] |},
      {| calls := []; console := [] |}))
  /\
  (truthy (BOT_TOKEN env) = true ->
   pathname request = lit "/setwebhook" ->
   WORKER_URL env = VStr [] ->
   run (Worker.fetch request env) net
   = (Normal {| status := 500; body := lit "WORKER_URL secret is not set";
                headers := [] |},
      {| calls := []; console := [] |})).
Proof.
  split.
  - intros H. unfold run, Worker.fetch. rewrite H. reflexivity.
  - intros Htok Hpath H. unfold run.
    rewrite (fetch_setup_route _ _ Htok Hpath). unfold setWebhook.
    rewrite H. reflexivity.
Qed.

Lemma empty_secret_is_not_set_witness :
  run (Worker.fetch (post (Some (update_of "group" "report")))
         {| BOT_TOKEN := VStr []; WORKER_URL := VStr [] |}) net_down
  = (Normal {| status := 500; body := lit "BOT_TOKEN secret is not set";
               headers := [] |},
     {| calls := []; console := [] |})
  /\
  run (Worker.fetch
         {| pathname := lit "/setwebhook"; method := lit "GET";
            body_json := None |}
         {| BOT_TOKEN := token; WORKER_URL := VStr [] |}) net_down
  = (Normal {| status := 500; body := lit "WORKER_URL secret is not set";
               headers := [] |},
     {| calls := []; console := [] |}).
Proof.
  split.
  - apply (proj1 (empty_secret_is_not_set net_down
                    (post (Some (update_of "group" "report")))
                    {| BOT_TOKEN := VStr []; WORKER_URL := VStr [] |})).
    reflexivity.
  - apply (proj2 (empty_secret_is_not_set net_down
                    {| pathname := lit "/setwebhook"; method := lit "GET";
                       body_json := None |}
                    {| BOT_TOKEN := token; WORKER_URL := VStr [] |}));
      reflexivity.
Defined.

(* ------------------------------------------------------------------ *)
(** *** What of an update matters *)

Lemma search_and_reply_message_id
  (botToken m1 m2 chatId : value) (query : jsstring) :
  get m1 (lit "message_id") = get m2 (lit "message_id") ->
  search_and_reply botToken m1 chatId query
  = search_and_reply botToken m2 chatId query.
Proof.
  intros H. unfold search_and_reply, prop. rewrite H. reflexivity.
Qed.

(** X12. Of a text message [handleUpdate] reads the chat identifier, the
    kind of chat, the trimmed text and the [message_id], nothing else.  Two
    updates that agree on these (surrounding white space of the text set
    aside, [group] and [supergroup] taken as one kind) make the same
    outbound calls, log the same and complete alike on the same network. *)
Theorem same_query_same_run
  (net : network) (botToken u1 m1 u2 m2 chatId ty1 ty2 : value)
  (t1 t2 : jsstring) :
  text_update u1 m1 t1 chatId ty1 ->
  text_update u2 m2 t2 chatId ty2 ->
  t1 <> [] -> t2 <> [] ->
  trim t1 = trim t2 ->
  same_kind ty1 ty2 ->
  get m1 (lit "message_id") = get m2 (lit "message_id") ->
  run (handleUpdate u1 botToken) net = run (handleUpdate u2 botToken) net.
Proof.
  intros H1 H2 Hn1 Hn2 Htrim Hkind Hmid. unfold run.
  rewrite (handleUpdate_text _ _ _ _ _ _ H1 Hn1),
    (handleUpdate_text _ _ _ _ _ _ H2 Hn2).
  rewrite Htrim, (search_and_reply_message_id botToken m1 m2 chatId _ Hmid).
  destruct Hkind as [-> | [Hg1 Hg2]].
  - reflexivity.
  - rewrite (group_dispatch _ Hg1), (group_dispatch _ Hg2). reflexivity.
Qed.

Lemma same_query_same_run_witness :
  run (handleUpdate (update_of "group" "  report ") token)
    (net_search (answer 200 (Some (search_data 3 [a_file]))))
  = run (handleUpdate
           (VObj [(lit "message",
                   VObj [(lit "text", VStr (lit "report"));
                         (lit "from", VObj [(lit "id", VNum 55)]);
                         (lit "chat",
                          VObj [(lit "type", VStr (lit "supergroup"));
                                (lit "title", VStr (lit "files"));
                                (lit "id", VNum (-1001))]);
                         (lit "message_id", VNum 7)])])
           token)
      (net_search (answer 200 (Some (search_data 3 [a_file])))).
Proof.
  apply (same_query_same_run
           (net_search (answer 200 (Some (search_data 3 [a_file]))))
           token (update_of "group" "  report ")
           (message_of "group" "  report ") _
           (VObj [(lit "text", VStr (lit "report"));
                  (lit "from", VObj [(lit "id", VNum 55)]);
                  (lit "chat",
                   VObj [(lit "type", VStr (lit "supergroup"));
                         (lit "title", VStr (lit "files"));
                         (lit "id", VNum (-1001))]);
                  (lit "message_id", VNum 7)])
           (VNum (-1001)) (VStr (lit "group")) (VStr (lit "supergroup"))
           (lit "  report ") (lit "report")).
  - repeat split. exists (chat_of "group"). repeat split.
  - repeat split.
    exists (VObj [(lit "type", VStr (lit "supergroup"));
                  (lit "title", VStr (lit "files"));
                  (lit "id", VNum (-1001))]).
    repeat split.
  - discriminate.
  - discriminate.
  - reflexivity.
  - right. split; [left | right]; reflexivity.
  - reflexivity.
Defined.

(* ------------------------------------------------------------------ *)
(** *** The query inside the URLs *)

Lemma lor_below (a b n : N) :
  (a < 2 ^ n -> b < 2 ^ n -> N.lor a b < 2 ^ n)%N.
Proof.
  intros Ha Hb.
  destruct (N.eq_dec (N.lor a b) 0) as [-> | Hz].
  - apply N.neq_0_lt_0, N.pow_nonzero. discriminate.
  - apply N.log2_lt_pow2; [lia |].
    rewrite N.log2_lor.
    destruct (N.eq_dec a 0) as [-> | Ha0]; destruct (N.eq_dec b 0) as [-> | Hb0].
    + exfalso. apply Hz. reflexivity.
    + rewrite N.max_r by (simpl; lia). apply N.log2_lt_pow2; [lia | exact Hb].
    + rewrite N.max_l by (simpl; lia). apply N.log2_lt_pow2; [lia | exact Ha].
    + apply N.max_lub_lt; apply N.log2_lt_pow2; lia || assumption.
Qed.

Lemma land_below (a b n : N) : (b < 2 ^ n -> N.land a b < 2 ^ n)%N.
Proof.
  intros Hb.
  destruct (N.eq_dec (N.land a b) 0) as [-> | Hz].
  - apply N.neq_0_lt_0, N.pow_nonzero. discriminate.
  - assert (Hb0 : b <> 0%N) by (intros ->; apply Hz, N.land_0_r).
    apply N.log2_lt_pow2; [lia |].
    pose proof (N.log2_land a b) as H.
    assert (N.log2 b < n)%N by (apply N.log2_lt_pow2; [lia | exact Hb]).
    lia.
Qed.

Lemma shiftr_below (a k n : N) : (a < 2 ^ (n + k) -> N.shiftr a k < 2 ^ n)%N.
Proof.
  intros H. rewrite N.shiftr_div_pow2.
  apply N.Div0.div_lt_upper_bound.
  rewrite <- N.pow_add_r, (N.add_comm k n). exact H.
Qed.

Lemma hex_digit_alnum (d : N) : (d < 16)%N -> is_alnum (hex_digit true d) = true.
Proof.
  intros H. unfold hex_digit, is_alnum, is_digit.
  destruct (d <? 10)%N eqn:E.
  - apply N.ltb_lt in E.
    assert (H1 : (48 <=? 48 + d)%N = true) by (apply N.leb_le; lia).
    assert (H2 : (48 + d <=? 57)%N = true) by (apply N.leb_le; lia).
    rewrite H1, H2. reflexivity.
  - apply N.ltb_ge in E.
    assert (H1 : (65 <=? 55 + d)%N = true) by (apply N.leb_le; lia).
    assert (H2 : (55 + d <=? 90)%N = true) by (apply N.leb_le; lia).
    rewrite H1, H2. cbn [andb]. rewrite orb_true_r. reflexivity.
Qed.

Lemma alnum_safe (c : N) : is_alnum c = true -> url_safe c.
Proof. intros H. left. unfold uriUnreserved. rewrite H. reflexivity. Qed.

Lemma percent_safe (octet : N) :
  (octet < 256)%N -> Forall url_safe (percent octet).
Proof.
  intros H. unfold percent.
  apply Forall_cons; [| apply Forall_cons; [| apply Forall_cons;
                                               [| apply Forall_nil]]].
  - right. reflexivity.
  - apply alnum_safe, hex_digit_alnum.
    apply (shiftr_below octet 4 4). exact H.
  - apply alnum_safe, hex_digit_alnum.
    apply (land_below octet 15 4). reflexivity.
Qed.

Lemma utf8_octets (cp : N) :
  (cp < 0x110000)%N -> Forall (fun o => o < 256)%N (utf8 cp).
Proof.
  intros H. unfold utf8.
  assert (Hc : forall x, (N.lor 0x80 (N.land x 0x3F) < 256)%N).
  { intros x. apply (lor_below _ _ 8); [reflexivity |].
    apply N.lt_trans with (2 ^ 6)%N; [| reflexivity].
    apply (land_below x 0x3F 6). reflexivity. }
  destruct (cp <? 0x80)%N eqn:E1.
  { apply N.ltb_lt in E1. repeat constructor. lia. }
  destruct (cp <? 0x800)%N eqn:E2.
  { apply N.ltb_lt in E2. repeat constructor; [| apply Hc].
    apply (lor_below _ _ 8); [reflexivity |].
    apply N.lt_trans with (2 ^ 5)%N; [| reflexivity].
    apply (shiftr_below cp 6 5). exact E2. }
  destruct (cp <? 0x10000)%N eqn:E3.
  { apply N.ltb_lt in E3. repeat constructor; try apply Hc.
    apply (lor_below _ _ 8); [reflexivity |].
    apply N.lt_trans with (2 ^ 4)%N; [| reflexivity].
    apply (shiftr_below cp 12 4). exact E3. }
  repeat constructor; try apply Hc.
  apply (lor_below _ _ 8); [reflexivity |].
  apply N.lt_trans with (2 ^ 3)%N; [| reflexivity].
  apply (shiftr_below cp 18 3).
  apply N.lt_trans with 0x110000%N; [exact H | reflexivity].
Qed.

Lemma percent_encode_safe (cp : N) :
  (cp < 0x110000)%N -> Forall url_safe (percent_encode cp).
Proof.
  intros H. unfold percent_encode.
  pose proof (utf8_octets cp H) as Ho.
  induction Ho as [| o l Hlt _ IH]; cbn [flat_map].
  - constructor.
  - apply Forall_app. split; [apply percent_safe, Hlt | exact IH].
Qed.

Lemma surrogate_pair_below (lead trail : N) :
  is_lead_surrogate lead = true -> is_trail_surrogate trail = true ->
  (surrogate_pair lead trail < 0x110000)%N.
Proof.
  unfold is_lead_surrogate, is_trail_surrogate, surrogate_pair.
  intros H1 H2.
  apply andb_prop in H1. destruct H1 as [H1 H1'].
  apply andb_prop in H2. destruct H2 as [H2 H2'].
  apply N.leb_le in H1, H1', H2, H2'. lia.
Qed.

Lemma encoded_safe_bounded (n : nat) :
  forall s e,
    (List.length s <= n)%nat -> code_units s ->
    encodeURIComponent s = Normal e -> Forall url_safe e.
Proof.
  induction n as [| n IH]; intros s e Hlen Hcu Henc.
  - destruct s; [| cbn in Hlen; lia].
    cbn in Henc. inversion Henc. constructor.
  - destruct s as [| c r]; [cbn in Henc; inversion Henc; constructor |].
    cbn [List.length] in Hlen.
    inversion Hcu as [| c' r' Hc Hr]; subst.
    cbn [encodeURIComponent] in Henc.
    destruct (uriUnreserved c) eqn:Hun.
    { destruct (encodeURIComponent r) as [t |] eqn:Hr'; [| discriminate].
      inversion Henc; subst. constructor; [left; exact Hun |].
      apply (IH r t); [lia | exact Hr | exact Hr']. }
    destruct (is_lead_surrogate c) eqn:Hlead.
    { destruct r as [| d r2]; [discriminate |].
      destruct (is_trail_surrogate d) eqn:Htrail; [| discriminate].
      destruct (encodeURIComponent r2) as [t |] eqn:Hr2; [| discriminate].
      inversion Henc; subst. apply Forall_app. split.
      - apply percent_encode_safe, surrogate_pair_below; assumption.
      - inversion Hr; subst. cbn [List.length] in Hlen.
        apply (IH r2 t); [lia | assumption | exact Hr2]. }
    destruct (is_trail_surrogate c); [discriminate |].
    destruct (encodeURIComponent r) as [t |] eqn:Hr'; [| discriminate].
    inversion Henc; subst. apply Forall_app. split.
    + apply percent_encode_safe.
      apply N.lt_trans with 65536%N; [exact Hc | reflexivity].
    + apply (IH r t); [lia | exact Hr | exact Hr'].
Qed.

(** X13. The text of a user cannot reach beyond the [q] parameter: in the
    URLs of the search call and of the button, the part that
    [encodeURIComponent] makes of the query holds only unreserved
    characters and percent signs, so none of [& = # ? / +] nor a space. *)
Theorem query_stays_in_its_parameter (query encoded : jsstring) :
  code_units query ->
  encodeURIComponent query = Normal encoded ->
  search_url encoded
  = lit "https://tga-hd.api.hashhackers.com/files/search?q=" ++ encoded
  /\ button_url encoded
     = lit "https://gods-eye.pages.dev/?q=" ++ encoded ++ lit "&t=files"
  /\ Forall url_safe encoded
  /\ forall c, In c (lit "&=#?/+ ") -> ~ In c encoded.
Proof.
  intros Hcu Henc.
  pose proof (encoded_safe_bounded (List.length query) query encoded
                (le_n _) Hcu Henc) as Hsafe.
  split; [reflexivity |]. split; [reflexivity |]. split; [exact Hsafe |].
  intros c Hc Hin.
  rewrite Forall_forall in Hsafe. specialize (Hsafe c Hin).
  cbn in Hc.
  destruct Hsafe as [Hs | Hs];
    repeat (destruct Hc as [<- | Hc]; [discriminate Hs |]); exact Hc.
Qed.

Lemma query_stays_in_its_parameter_witness :
  search_url (lit "a%26t%3Dvideos%20b")
  = lit "https://tga-hd.api.hashhackers.com/files/search?q="
    ++ lit "a%26t%3Dvideos%20b"
  /\ button_url (lit "a%26t%3Dvideos%20b")
     = lit "https://gods-eye.pages.dev/?q=" ++ lit "a%26t%3Dvideos%20b"
       ++ lit "&t=files"
  /\ Forall url_safe (lit "a%26t%3Dvideos%20b")
  /\ forall c, In c (lit "&=#?/+ ") -> ~ In c (lit "a%26t%3Dvideos%20b").
Proof.
  apply (query_stays_in_its_parameter (lit "a&t=videos b")
           (lit "a%26t%3Dvideos%20b")).
  - repeat constructor.
  - reflexivity.
Defined.

(* ------------------------------------------------------------------ *)
(** *** Missing fields, logged causes, composition *)

(** X14. When the message of the update has no [message_id] (or a zero
    one), the reply to a successful search is the same text and keyboard,
    sent as a plain message: the first message is the [No results found]
    reply, or the [Found] reply with its button, and its body has no
    [reply_to_message_id]. *)
Theorem reply_without_message_id
  (net : network) (update botToken message chatId : value)
  (query encoded : jsstring) (data mid : value) :
  search_update update message chatId query ->
  encodeURIComponent query = Normal encoded ->
  search_returns (net O) data ->
  get message (lit "message_id") = Normal mid ->
  truthy mid = false ->
  let first := hd_error (messages (snd (run (handleUpdate update botToken) net))) in
  (no_files data ->
   first
   = Some
       (message_call botToken chatId
          (lit "No results found for " ++ dquote ++ query ++ dquote
           ++ lit ". Please try a different search term.")
          None None))
  /\
  (forall f fs total count,
     get data (lit "files") = Normal (VArr (f :: fs)) ->
     get data (lit "total_files") = Normal total ->
     ToString_value total = Normal count ->
     first
     = Some
         (message_call botToken chatId
            (lit "Found " ++ count ++ lit " result(s) for " ++ dquote
             ++ query ++ dquote ++ lit ".")
            (Some (reply_markup (button_url encoded))) None)).
Proof.
  intros Hu Henc Hret Hmid Hfalsy first. subst first. split.
  - intros Hnone.
    rewrite (run_search_empty net update botToken message chatId query encoded
               data mid Hu Henc Hret (has_results_absent _ Hnone) Hmid).
    rewrite run_reply. unfold supplied at 2 4. rewrite Hfalsy.
    destruct (net 1%nat); reflexivity.
  - intros f fs total count Hfiles Htotal Hcount.
    rewrite (run_search_found net update botToken message chatId query encoded
               count data f total mid fs Hu Henc Hret Hfiles Htotal Hcount
               Hmid).
    rewrite run_reply. unfold supplied at 2 4. rewrite Hfalsy.
    destruct (net 1%nat); reflexivity.
Qed.

Lemma reply_without_message_id_witness :
  hd_error
    (messages
       (snd (run (handleUpdate
                    (VObj [(lit "message",
                            VObj [(lit "chat", chat_of "group");
                                  (lit "text", VStr (lit "report"))])])
                    token)
               (net_search (answer 200 (Some (search_data 3 [a_file])))))))
  = Some
      (message_call token (VNum (-1001))
         (lit "Found 3 result(s) for " ++ dquote ++ lit "report" ++ dquote
          ++ lit ".")
         (Some (reply_markup (button_url (lit "report")))) None)
  /\
  hd_error
    (messages
       (snd (run (handleUpdate update_with_id_0 token)
               (net_search (answer 200 (Some (search_data 0 [])))))))
  = Some
      (message_call token (VNum (-1001))
         (lit "No results found for " ++ dquote ++ lit "report" ++ dquote
          ++ lit ". Please try a different search term.")
         None None).
Proof.
  split.
  - assert (Hu : search_update
                   (VObj [(lit "message",
                           VObj [(lit "chat", chat_of "group");
                                 (lit "text", VStr (lit "report"))])])
                   (VObj [(lit "chat", chat_of "group");
                          (lit "text", VStr (lit "report"))])
                   (VNum (-1001)) (lit "report")).
    { exists (lit "report"), (VStr (lit "group")). repeat split.
      - exists (chat_of "group"). repeat split.
      - left. reflexivity.
      - discriminate. }
    apply (proj2 (reply_without_message_id
                    (net_search (answer 200 (Some (search_data 3 [a_file]))))
                    _ token _ (VNum (-1001)) (lit "report") (lit "report")
                    (search_data 3 [a_file]) VUndefined Hu eq_refl
                    (ex_intro _ _ (conj eq_refl (conj eq_refl eq_refl)))
                    eq_refl eq_refl)
             a_file [] (VNum 3) (lit "3")); reflexivity.
  - assert (Hu : search_update update_with_id_0
                   (VObj [(lit "message_id", VNum 0);
                          (lit "chat", chat_of "group");
                          (lit "text", VStr (lit "report"))])
                   (VNum (-1001)) (lit "report")).
    { exists (lit "report"), (VStr (lit "group")). repeat split.
      - exists (chat_of "group"). repeat split.
      - left. reflexivity.
      - discriminate. }
    apply (proj1 (reply_without_message_id
                    (net_search (answer 200 (Some (search_data 0 []))))
                    _ token _ (VNum (-1001)) (lit "report") (lit "report")
                    (search_data 0 []) (VNum 0) Hu eq_refl
                    (ex_intro _ _ (conj eq_refl (conj eq_refl eq_refl)))
                    eq_refl eq_refl)).
    right. exists (VArr []). split; [reflexivity | right; reflexivity].
Defined.

(** X15. When the search answers with a non-empty [files] array and no
    [total_files], the reply reads [Found undefined result(s) for "<query>".]:
    the count is printed as it is read, nothing stands in for a missing
    one. *)
Theorem missing_total_is_printed_undefined
  (net : network) (update botToken message chatId : value)
  (query encoded : jsstring) (data f mid : value) (fs : list value) :
  search_update update message chatId query ->
  encodeURIComponent query = Normal encoded ->
  search_returns (net O) data ->
  get data (lit "files") = Normal (VArr (f :: fs)) ->
  get data (lit "total_files") = Normal VUndefined ->
  get message (lit "message_id") = Normal mid ->
  hd_error (messages (snd (run (handleUpdate update botToken) net)))
  = Some
      (message_call botToken chatId
         (lit "Found undefined result(s) for " ++ dquote ++ query ++ dquote
          ++ lit ".")
         (Some (reply_markup (button_url encoded))) (supplied mid)).
Proof.
  intros Hu Henc Hret Hfiles Htotal Hmid.
  rewrite (run_search_found net update botToken message chatId query encoded
             (lit "undefined") data f VUndefined mid fs Hu Henc Hret Hfiles
             Htotal eq_refl Hmid).
  rewrite run_reply.
  destruct (net 1%nat); reflexivity.
Qed.

Lemma missing_total_is_printed_undefined_witness :
  hd_error
    (messages
       (snd (run (handleUpdate (update_of "group" "report") token)
               (net_search
                  (answer 200 (Some (VObj [(lit "files", VArr [a_file])])))))))
  = Some
      (message_call token (VNum (-1001))
         (lit "Found undefined result(s) for " ++ dquote ++ lit "report"
          ++ dquote ++ lit ".")
         (Some (reply_markup (button_url (lit "report")))) (Some (VNum 7))).
Proof.
  apply (missing_total_is_printed_undefined
           (net_search
              (answer 200 (Some (VObj [(lit "files", VArr [a_file])]))))
           (update_of "group" "report") token (message_of "group" "report")
           (VNum (-1001)) (lit "report") (lit "report")
           (VObj [(lit "files", VArr [a_file])]) a_file (VNum 7) []).
  - exists (lit "report"), (VStr (lit "group")). repeat split.
    + exists (chat_of "group"). repeat split.
    + left. reflexivity.
    + discriminate.
  - reflexivity.
  - eexists. repeat split.
  - reflexivity.
  - reflexivity.
  - reflexivity.
Defined.

(** X16. What the console holds after a failed search names the cause:
    the network error when the call rejects, an [Error] whose message ends
    with the status when the answer is not 2xx (its body is not read), a
    [SyntaxError] when a 2xx answer is not JSON. *)
Theorem search_failure_is_logged
  (net : network) (update botToken message chatId : value)
  (query encoded : jsstring) :
  search_update update message chatId query ->
  encodeURIComponent query = Normal encoded ->
  let logged := console (snd (run (handleUpdate update botToken) net)) in
  (net O = Rejects ->
   logged = [(lit "Error during search or send:", NetworkError)])
  /\ (forall r, net O = Responds r -> res_ok r = false ->
      logged = [(lit "Error during search or send:",
                 Error (lit "API search failed with status: "
                        ++ number_to_string (res_status r)))])
  /\ (forall r, net O = Responds r -> res_ok r = true -> res_json r = None ->
      logged = [(lit "Error during search or send:", SyntaxError)]).
Proof.
  intros Hu Henc. cbv zeta.
  split; [| split]; unfold run;
    rewrite (handleUpdate_search _ _ _ _ _ Hu);
    unfold bind at 1; unfold try_catch, search_and_reply;
    rewrite Henc, bind_lift, bind_fetch_initial.
  - intros ->.
    exact (f_equal (fun p => console (snd p))
             (recover_at botToken chatId NetworkError net
                {| calls := [GET (search_url encoded)]; console := [] |})).
  - intros r -> Hok. rewrite Hok. cbn [negb throw].
    exact (f_equal (fun p => console (snd p))
             (recover_at botToken chatId _ net
                {| calls := [GET (search_url encoded)]; console := [] |})).
  - intros r -> Hok Hj. rewrite Hok. cbn [negb].
    unfold json. rewrite Hj. unfold bind at 1. cbn [throw].
    exact (f_equal (fun p => console (snd p))
             (recover_at botToken chatId SyntaxError net
                {| calls := [GET (search_url encoded)]; console := [] |})).
Qed.

Lemma search_failure_is_logged_witness :
  console (snd (run (handleUpdate (update_of "group" "report") token)
                  (net_search (answer 503 (Some (search_data 3 [a_file]))))))
  = [(lit "Error during search or send:",
      Error (lit "API search failed with status: 503"))].
Proof.
  assert (Hu : search_update (update_of "group" "report")
                 (message_of "group" "report") (VNum (-1001)) (lit "report")).
  { exists (lit "report"), (VStr (lit "group")). repeat split.
    - exists (chat_of "group"). repeat split.
    - left. reflexivity.
    - discriminate. }
  apply (proj1 (proj2 (search_failure_is_logged
                         (net_search
                            (answer 503 (Some (search_data 3 [a_file]))))
                         (update_of "group" "report") token
                         (message_of "group" "report") (VNum (-1001))
                         (lit "report") (lit "report") Hu eq_refl))
           {| res_status := 503;
              res_json := Some (search_data 3 [a_file]) |}).
  - reflexivity.
  - reflexivity.
Defined.

(** X17. On the update route the exported handler adds no outbound call
    to those of [handleUpdate] and relays its response; only a thrown
    error is replaced, by 400 [Invalid request body], and logged. *)
Theorem update_route_relays_handleUpdate
  (net : network) (request : Request) (env : Env) (update : value) :
  truthy (BOT_TOKEN env) = true ->
  pathname request <> lit "/setwebhook" ->
  method request = lit "POST" ->
  body_json request = Some update ->
  let inner := run (handleUpdate update (BOT_TOKEN env)) net in
  let outer := run (Worker.fetch request env) net in
  calls (snd outer) = calls (snd inner)
  /\ match fst inner with
     | Normal response =>
         fst outer = Normal response /\ console (snd outer) = console (snd inner)
     | Throws e =>
         fst outer
         = Normal {| status := 400; body := lit "Invalid request body";
                     headers := [] |}
         /\ console (snd outer)
            = console (snd inner) ++ [(lit "Error parsing update:", e)]
     end.
Proof.
  intros Htok Hpath Hmethod Hbody. cbv zeta.
  assert (E : run (Worker.fetch request env) net =
              match run (handleUpdate update (BOT_TOKEN env)) net with
              | (Normal response, st) => (Normal response, st)
              | (Throws e, st) =>
                  (Normal {| status := 400; body := lit "Invalid request body";
                             headers := [] |},
                   {| calls := calls st;
                      console := console st
                                 ++ [(lit "Error parsing update:", e)] |})
              end).
  { unfold run. rewrite (fetch_update_route _ _ Htok Hpath Hmethod).
    unfold try_catch, bind, request_json. rewrite Hbody. reflexivity. }
  rewrite E.
  destruct (run (handleUpdate update (BOT_TOKEN env)) net) as [[r | e] st];
    cbn [fst snd calls console]; repeat split; reflexivity.
Qed.

Lemma update_route_relays_handleUpdate_witness :
  calls (snd (run (Worker.fetch (post (Some (update_of "group" "report")))
                     env_ok)
                (net_search (answer 200 (Some (search_data 3 [a_file]))))))
  = calls (snd (run (handleUpdate (update_of "group" "report") token)
                  (net_search (answer 200 (Some (search_data 3 [a_file]))))))
  /\ fst (run (Worker.fetch (post (Some (update_of "group" "report")))
                 env_ok)
            (net_search (answer 200 (Some (search_data 3 [a_file])))))
     = Normal OK
  /\ console
       (snd (run (Worker.fetch (post (Some (update_of "group" "report")))
                    env_ok)
               (net_search (answer 200 (Some (search_data 3 [a_file]))))))
     = [].
Proof.
  apply (update_route_relays_handleUpdate
           (net_search (answer 200 (Some (search_data 3 [a_file]))))
           (post (Some (update_of "group" "report"))) env_ok
           (update_of "group" "report")).
  - reflexivity.
  - discriminate.
  - reflexivity.
  - reflexivity.
Defined.

(** X18. An optional argument of [sendMessage] that is falsy ([null],
    [undefined], [0], the empty string, [false]) is the same as one left
    out: the delivery call and the completion are those of the call without
    it. *)
Theorem falsy_options_are_left_out
  (net : network) (token chatId text replyMarkup replyToMessageId : value) :
  truthy replyMarkup = false ->
  truthy replyToMessageId = false ->
  run (sendMessage token chatId text replyMarkup replyToMessageId) net
  = run (sendMessage token chatId text VUndefined VUndefined) net
  /\ calls (snd (run (sendMessage token chatId text replyMarkup
                        replyToMessageId) net))
     = [{| req_url := lit "https://api.telegram.org/bot" ++ ToString token
                      ++ lit "/sendMessage";
           req_method := lit "POST";
           req_headers := [(lit "Content-Type", lit "application/json")];
           req_body :=
             JSON_stringify
               (VObj [(lit "chat_id", chatId); (lit "text", text);
                      (lit "parse_mode", VStr (lit "HTML"))]) |}].
Proof.
  intros Hmk Hmid. unfold run. rewrite !sendMessage_at.
  assert (E : sendMessage_request token chatId text
                (default_param replyMarkup VNull)
                (default_param replyToMessageId VNull)
              = sendMessage_request token chatId text VNull VNull).
  { unfold sendMessage_request, payload.
    replace (truthy (default_param replyMarkup VNull)) with false
      by (destruct replyMarkup; try reflexivity; symmetry; exact Hmk).
    replace (truthy (default_param replyToMessageId VNull)) with false
      by (destruct replyToMessageId; try reflexivity; symmetry; exact Hmid).
    reflexivity. }
  rewrite E. split; reflexivity.
Qed.

Lemma falsy_options_are_left_out_witness :
  run (sendMessage token (VNum (-1001)) (VStr notice_text) (VStr [])
         (VNum 0)) net_down
  = run (sendMessage token (VNum (-1001)) (VStr notice_text)
           VUndefined VUndefined) net_down
  /\ calls (snd (run (sendMessage token (VNum (-1001)) (VStr notice_text)
                        (VStr []) (VNum 0)) net_down))
     = [{| req_url := lit "https://api.telegram.org/bot" ++ ToString token
                      ++ lit "/sendMessage";
           req_method := lit "POST";
           req_headers := [(lit "Content-Type", lit "application/json")];
           req_body :=
             JSON_stringify
               (VObj [(lit "chat_id", VNum (-1001));
                      (lit "text", VStr notice_text);
                      (lit "parse_mode", VStr (lit "HTML"))]) |}].
Proof.
  apply (falsy_options_are_left_out net_down token (VNum (-1001))
           (VStr notice_text) (VStr []) (VNum 0)); reflexivity.
Defined.
